(** * FloodVision: the prediction and presentation pipeline of [final6_app.py]

    A shallow embedding of the dashboard script.  Python floats are IEEE 754
    binary64 values ([spec_float] with precision 53 and maximal exponent
    1024, the executable specification the Standard Library gives of the
    format), so comparisons against thresholds, the currency multiplication
    and the divisions of the rupee formatter round exactly as CPython
    rounds them.  Streamlit calls are recorded as the list of elements they
    write to the page, in a writer monad that also carries Python
    exceptions.  The two fitted pipelines, [numpy.expm1] and matplotlib's
    layout of the damage bar are external: they are parameters of the
    model.  The state of the widgets is a parameter too, within the
    ranges the widgets are declared with. *)

From Stdlib Require Import ZArith Bool List String Ascii Lia.
From Stdlib Require Import Floats.SpecFloat.
From Stdlib Require Import DecimalString.
From Stdlib Require Import Permutation.
Import ListNotations.

Open Scope Z_scope.
Open Scope string_scope.

(** ** Python floats *)

Module Float.

Definition float := spec_float.

Definition prec : Z := 53.
Definition emax : Z := 1024.

Definition nan : float := S754_nan.

Definition add : float -> float -> float := SFadd prec emax.
Definition mul : float -> float -> float := SFmul prec emax.
Definition div : float -> float -> float := SFdiv prec emax.

(** [x < y], [x <= y], [x > y], [x >= y]: false as soon as one side is
    NaN. *)
Definition ltb (x y : float) : bool := SFltb x y.
Definition leb (x y : float) : bool := SFleb x y.
Definition gtb (x y : float) : bool := SFltb y x.
Definition geb (x y : float) : bool := SFleb y x.

(** An integer literal or an [int] operand, converted to the nearest
    float (exact below 2^53). *)
Definition of_Z (z : Z) : float := binary_normalize prec emax z 0 false.

(** A decimal literal [digits * 10^-places], such as [0.6] = [dec 6 1]:
    the float nearest to the decimal, obtained as the correctly rounded
    quotient of two exactly representable integers. *)
Definition dec (digits : Z) (places : nat) : float :=
  div (of_Z digits) (of_Z (10 ^ Z.of_nat places)).

Definition is_finite (x : float) : bool :=
  match x with
  | S754_zero _ | S754_finite _ _ _ => true
  | S754_infinity _ | S754_nan => false
  end.

(** Python's builtin [max] over a non-empty sequence: the running maximum
    is replaced only by an item that compares greater. *)
Definition max_from (x : float) (xs : list float) : float :=
  fold_left (fun best item => if gtb item best then item else best) xs x.

End Float.

Abbreviation float := Float.float.

Declare Scope float_scope.
Delimit Scope float_scope with float.
Infix "+" := Float.add : float_scope.
Infix "*" := Float.mul : float_scope.
Infix "/" := Float.div : float_scope.
Infix "<?" := Float.ltb : float_scope.
Infix "<=?" := Float.leb : float_scope.
Infix ">?" := Float.gtb : float_scope.
Infix ">=?" := Float.geb : float_scope.

Definition is_nan (x : float) : bool :=
  match x with
  | S754_nan => true
  | _ => false
  end.

(** ** Format specifications of f-strings *)

Module PyFormat.

Definition digits_of_N (n : N) : string :=
  NilZero.string_of_uint (N.to_uint n).

(** The integer nearest to [m * 2^e * 10^places], ties to even: the digits
    a correctly rounded fixed-point conversion prints. *)
Definition scaled_round (m : positive) (e : Z) (places : nat) : Z :=
  let n := Zpos m * 10 ^ Z.of_nat places in
  if (0 <=? e)%Z then n * 2 ^ e
  else
    let d := 2 ^ (- e) in
    let q := n / d in
    let r := n mod d in
    match 2 * r ?= d with
    | Lt => q
    | Gt => q + 1
    | Eq => if Z.even q then q else q + 1
    end.

Fixpoint zeros (k : nat) : string :=
  match k with
  | O => ""
  | S k' => String "0" (zeros k')
  end.

(** Left-pad with zeros up to [width] characters. *)
Definition zero_pad (width : nat) (s : string) : string :=
  zeros (width - String.length s) ++ s.

(** Thousands separators, on the reversed digits: [k] digits of the
    current group are already out. *)
Fixpoint group_rev (ds : list ascii) (k : nat) : list ascii :=
  match ds with
  | [] => []
  | d :: rest =>
      match k with
      | 3%nat => "," % char :: d :: group_rev rest 1
      | _ => d :: group_rev rest (S k)
      end
  end.

Definition group3 (s : string) : string :=
  string_of_list_ascii (rev (group_rev (rev (list_ascii_of_string s)) 0)).

(** The unsigned part of a fixed-point rendering of [n * 10^-places]. *)
Definition render_fixed (grouping : bool) (places : nat) (n : Z) : string :=
  let ds := zero_pad (S places) (digits_of_N (Z.to_N n)) in
  let k := (String.length ds - places)%nat in
  let ip := substring 0 k ds in
  let fp := substring k places ds in
  (if grouping then group3 ip else ip)
  ++ (match places with O => "" | _ => "." ++ fp end).

Definition sign_of (s : bool) : string := if s then "-" else "".

(** [format(x, ".{places}f")], or [",.{places}f"] with [grouping]. *)
Definition format_f (grouping : bool) (places : nat) (x : float) : string :=
  match x with
  | S754_nan => "nan"
  | S754_infinity s => sign_of s ++ "inf"
  | S754_zero s => sign_of s ++ render_fixed grouping places 0
  | S754_finite s m e =>
      sign_of s ++ render_fixed grouping places (scaled_round m e places)
  end.

(** [format(x, ".{places}%")]: the value times 100, in fixed point, then a
    percent sign. *)
Definition format_pct (places : nat) (x : float) : string :=
  format_f false places (x * Float.of_Z 100)%float ++ "%".

End PyFormat.

(** ** Constants of the script *)

Definition NUM_FEATURES : list string :=
  [ "rainfall_mm"; "rain_7d"; "rain_30d";
    "elevation"; "dist_to_river";
    "population_density"; "impervious_frac"; "land_cover_index" ].

Definition RISK_LABELS : list (Z * string) :=
  [ (0, "Low"); (1, "Medium"); (2, "High") ].

Definition RISK_COLORS : list (string * string) :=
  [ ("Low", "#28a745"); ("Medium", "#ffc107"); ("High", "#dc3545") ].

Definition USD_TO_INR : float := Float.dec 830 1.

(** ** Derived metrics *)

Definition convert_usd_to_inr (usd_amount : float) : float :=
  (usd_amount * USD_TO_INR)%float.

Definition format_rupees (amount : float) : string :=
  if (amount >=? Float.of_Z 10000000)%float then
    "₹" ++ PyFormat.format_f false 2 (amount / Float.of_Z 10000000)%float ++ " crore"
  else if (amount >=? Float.of_Z 100000)%float then
    "₹" ++ PyFormat.format_f false 2 (amount / Float.of_Z 100000)%float ++ " lakh"
  else
    "₹" ++ PyFormat.format_f true 0 amount.

(** ** Texts of the page

    The string literals of the script, byte for byte (UTF-8); [dq] is the
    double quote. *)

Definition dq : string := String (ascii_of_nat 34) EmptyString.

Definition banner_warning : string :=
  "⚠️ Always follow official guidelines during severe weather. This dashboard is only a prediction tool.".

Definition page_title : string :=
  "🌊 Flood Risk Prediction Dashboard".

Definition compat_notice : string :=
  "✅ Version compatibility fix applied".

Definition lightgbm_instructions : string :=
  "
            **Missing LightGBM package. Install it with:**
            ```bash
            pip install lightgbm
            ```
            or
            ```bash
            conda install lightgbm
            ```
            ".

Definition common_solutions : string :=
  "
            **Common solutions:**
            1. Install missing packages: `pip install lightgbm`
            2. Check model files exist in 'models/' folder
            3. Ensure all dependencies are installed
            ".

Definition picker_instructions : string :=
  "
    **Instructions:**
    1. **Zoom** to your exact area using mouse wheel
    2. **Click** precisely on your location  
    3. **Copy** the coordinates from popup
    4. **Paste** in Latitude/Longitude fields below
    ".

Definition before_flood : string :=
  "
            - Know evacuation routes
            - Pack emergency kit
            - Keep phone charged
            - Secure important documents
            - Move valuables to higher floors
            - Monitor weather alerts
            ".

Definition during_flood : string :=
  "
            - Move to higher ground immediately
            - Don't touch electric appliances
            - Don't go near rivers/streams
            - Avoid driving in waterlogged areas
            - Keep listening to official alerts
            - Switch off electricity at main
            ".

Definition after_flood : string :=
  "
            - Avoid contaminated water
            - Clean and disinfect surroundings
            - Check for structural damages
            - Document damages for insurance
            - Boil drinking water
            - Watch for electrical hazards
            ".

Definition immediate_actions : string :=
  "
        **IMMEDIATE ACTIONS REQUIRED:**
        
        🚶 **Move to higher ground immediately** - Don't wait for instructions
        ⚡ **Switch off electricity** at main switch
        📄 **Carry essential documents** in waterproof bag
        🚗 **Avoid driving** in waterlogged areas
        📞 **Call emergency helpline** if trapped: 108 or 101
        📻 **Stay tuned** to local news and alerts
        🏠 **Evacuate** if advised by authorities
        ".

Definition volunteer_intro : string :=
  "
    **Volunteer or support these organizations during floods:**
    ".

Definition donate_red_cross : string :=
  "
        <a href=" ++ dq ++ "https://www.indianredcross.org/donate" ++ dq ++ " target=" ++ dq ++ "_blank" ++ dq ++ ">
            <button style=" ++ dq ++ "background-color: #dc3545; color: white; padding: 10px 20px; border: none; border-radius: 5px; width: 100%;" ++ dq ++ ">
                🟥 Donate to Red Cross India
            </button>
        </a>
        ".

Definition donate_hemkunt : string :=
  "
        <a href=" ++ dq ++ "https://hemkuntfoundation.com/donate/" ++ dq ++ " target=" ++ dq ++ "_blank" ++ dq ++ ">
            <button style=" ++ dq ++ "background-color: #fd7e14; color: white; padding: 10px 20px; border: none; border-radius: 5px; width: 100%;" ++ dq ++ ">
                🟧 Donate to Hemkunt Foundation
            </button>
        </a>
        ".

Definition installation_instructions : string :=
  "
        ## 📋 Installation Instructions
        
        Please install the required packages:
        ```bash
        pip install lightgbm streamlit pandas numpy matplotlib folium streamlit-folium scikit-learn joblib
        ```
        
        Then restart the app.
        ".

Definition critical_alert : string :=
  "
                    **CRITICAL ALERT - HIGH FLOOD RISK DETECTED**
                    - Immediate evacuation preparation recommended
                    - Notify local authorities and emergency services
                    - Monitor weather forecasts continuously
                    - Activate emergency response plans
                    ".

Definition medium_alert : string :=
  "
                    **MEDIUM RISK - INCREASED VIGILANCE REQUIRED**
                    - Monitor water levels and weather updates
                    - Prepare emergency supplies
                    - Review evacuation routes
                    - Stay informed about local alerts
                    ".

Definition low_alert : string :=
  "
                    **LOW RISK - NORMAL CONDITIONS**
                    - Continue routine monitoring
                    - Maintain standard preparedness
                    - Stay informed about weather changes
                    ".

Definition map_features : string :=
  "
                **🗺️ Map Features:**
                
                📍 **Marker**: Your location with risk details (click to see details)  
                🎯 **Colored Circle**: Flood risk impact area  
                🔍 **Zoom in/out**: Use mouse wheel or +/- buttons
                ".

Definition how_to_use : string :=
  "
    **💡 How to use:**
    1. Enter feature values
    2. Click on map OR enter coordinates manually
    3. Click 'Predict Flood Risk'
    4. View results and map
    
    **📍 Getting coordinates:**
    - Click anywhere on the map above
    - Copy coordinates from popup
    - Paste in Latitude/Longitude fields
    ".

(** ** Exceptions *)

(** A Python exception (an instance of [Exception]): its class and
    [str(e)]. *)
Inductive exception : Type :=
| PyExc (class_name : string) (message : string).

Definition str (e : exception) : string :=
  match e with PyExc _ message => message end.

Inductive result (A : Type) : Type :=
| Ok (a : A)
| Raise (e : exception).

Arguments Ok {A} a.
Arguments Raise {A} e.

Definition result_bind {A B : Type} (r : result A) (k : A -> result B) : result B :=
  match r with
  | Ok a => k a
  | Raise e => Raise e
  end.

Notation "'let?' x ':=' r 'in' k" := (result_bind r (fun x => k))
  (at level 10, x pattern, r at level 100, k at level 200).

(** [str.lower()] and [needle in haystack], on ASCII letters. *)
Definition lower_ascii (c : ascii) : ascii :=
  let n := nat_of_ascii c in
  if ((65 <=? n) && (n <=? 90))%nat then ascii_of_nat (n + 32) else c.

Fixpoint lower (s : string) : string :=
  match s with
  | EmptyString => EmptyString
  | String c rest => String (lower_ascii c) (lower rest)
  end.

Definition contains (needle haystack : string) : bool :=
  match index 0 needle haystack with
  | Some _ => true
  | None => false
  end.

Definition repr_Z (z : Z) : string :=
  match z with
  | Zneg p => "-" ++ PyFormat.digits_of_N (Npos p)
  | _ => PyFormat.digits_of_N (Z.to_N z)
  end.

(** [d[key]] on a dict with string keys, and on one with integer keys. *)
Fixpoint getitem {V : Type} (d : list (string * V)) (key : string) : result V :=
  match d with
  | [] => Raise (PyExc "KeyError" ("'" ++ key ++ "'"))
  | (k, v) :: rest => if (k =? key)%string then Ok v else getitem rest key
  end.

Fixpoint getitem_int {V : Type} (d : list (Z * V)) (key : Z) : result V :=
  match d with
  | [] => Raise (PyExc "KeyError" (repr_Z key))
  | (k, v) :: rest => if (k =? key)%Z then Ok v else getitem_int rest key
  end.

(** [a[i]] on a one-dimensional array. *)
Definition array_item (a : list float) (i : nat) : result float :=
  match nth_error a i with
  | Some x => Ok x
  | None =>
      Raise (PyExc "IndexError"
               ("index " ++ PyFormat.digits_of_N (N.of_nat i)
                ++ " is out of bounds for axis 0 with size "
                ++ PyFormat.digits_of_N (N.of_nat (List.length a))))
  end.

(** ** Maps and charts *)

Record marker : Type := {
  marker_location : float * float;
  marker_popup : string;
  marker_popup_max_width : Z;
  marker_tooltip : string;
  icon_color : string;
  icon_name : string
}.

Record circle : Type := {
  circle_location : float * float;
  circle_radius : Z;
  circle_popup : string;
  circle_color : string;
  circle_fill : bool;
  circle_fill_opacity : float;
  circle_weight : Z
}.

Inductive map_child : Type :=
| Marker (mk : marker)
| Circle (c : circle)
| LatLngPopup.

Record folium_map : Type := {
  map_location : float * float;
  zoom_start : Z;
  tiles : string;
  children : list map_child
}.

Record bar : Type := {
  bar_label : string;
  bar_height : float;
  bar_color : string
}.

(** A matplotlib figure: its bars and the text annotations drawn over
    them, in drawing order (axis styling is not recorded). *)
Inductive figure : Type :=
| BarChart (title ylabel : string) (bars : list bar) (texts : list string)
| BarhChart (title xlabel : string) (b : bar) (text : string).

(** [folium.utilities.validate_location], which [folium.Map] (and then
    [folium.Marker] and [folium.Circle]) applies to [[lat, lon]]: two
    floats pass unless one of them is NaN. *)
Definition validate_location (lat lon : float) : result unit :=
  if is_nan lat || is_nan lon
  then Raise (PyExc "ValueError" "Location values cannot contain NaNs.")
  else Ok tt.

Definition create_interactive_map (lat lon : float) (risk_level : string)
    (p_high pred_damage_inr : float) (city_name : string) : result folium_map :=
  let? _ := validate_location lat lon in
  let '(icon_color, risk_radius) :=
    if (risk_level =? "High")%string then ("red", 3000)
    else if (risk_level =? "Medium")%string then ("orange", 2000)
    else ("green", 1000) in
  let? popup_color := getitem RISK_COLORS risk_level in
  let popup :=
    "
            <div style=" ++ dq ++ "font-family: Arial; font-size: 14px;" ++ dq ++ ">
                <h4 style=" ++ dq ++ "margin: 5px 0; color: #333;" ++ dq ++ ">" ++ city_name ++ "</h4>
                <hr style=" ++ dq ++ "margin: 8px 0;" ++ dq ++ ">
                <b>Risk Level:</b> <span style=" ++ dq ++ "color: " ++ popup_color ++ dq ++ ">" ++ risk_level ++ "</span><br>
                <b>High Risk Probability:</b> " ++ PyFormat.format_pct 1 p_high ++ "<br>
                <b>Estimated Damage:</b> ₹" ++ PyFormat.format_f true 0 pred_damage_inr ++ "<br>
                <b>Coordinates:</b> " ++ PyFormat.format_f false 6 lat ++ ", " ++ PyFormat.format_f false 6 lon ++ "<br>
            </div>
            " in
  let mk := {|
    marker_location := (lat, lon);
    marker_popup := popup;
    marker_popup_max_width := 300;
    marker_tooltip := "📍 " ++ city_name ++ " - " ++ risk_level ++ " Risk";
    icon_color := icon_color;
    icon_name := "info-sign" |} in
  let? color := getitem RISK_COLORS risk_level in
  let c := {|
    circle_location := (lat, lon);
    circle_radius := risk_radius;
    circle_popup := "Risk Impact Area (~" ++ repr_Z risk_radius ++ "m radius)";
    circle_color := color;
    circle_fill := true;
    circle_fill_opacity := Float.dec 2 1;
    circle_weight := 3 |} in
  Ok {| map_location := (lat, lon);
        zoom_start := 13;
        tiles := "OpenStreetMap";
        children := [Marker mk; Circle c] |}.

(** The picker map of the sidebar, centred on India. *)
Definition coordinate_picker_map : folium_map :=
  {| map_location := (Float.dec 205937 4, Float.dec 789629 4);
     zoom_start := 5;
     tiles := "OpenStreetMap";
     children := [LatLngPopup] |}.

(** [ax.bar(labels, probas, ...)] broadcasts the heights against the three
    labels: three heights, or one height repeated; any other number is a
    [ValueError] (its message starts as below).  One annotation is drawn per
    pair of [zip(bars, probas)]. *)
Definition plot_risk_probabilities (probas : list float) : result figure :=
  let labels := map snd RISK_LABELS in
  let? colors :=
    fold_right (fun label acc =>
                  let? c := getitem RISK_COLORS label in
                  let? cs := acc in Ok (c :: cs))
               (Ok []) labels in
  let? heights :=
    match probas with
    | [p] => Ok (map (fun _ => p) labels)
    | _ =>
        if (List.length probas =? List.length labels)%nat then Ok probas
        else Raise (PyExc "ValueError"
                      "shape mismatch: objects cannot be broadcast to a single shape")
    end in
  Ok (BarChart "Flood Risk Probability Distribution" "Probability"
        (map (fun '(label, height, color) =>
                {| bar_label := label; bar_height := height; bar_color := color |})
             (combine (combine labels heights) colors))
        (map (fun '(_, prob) => PyFormat.format_pct 1 prob)
             (combine labels probas))).

(** The damage chart.  What matplotlib does with a bar of this width
    ([ax.barh], [ax.text] and [plt.tight_layout]) is library code and a
    parameter, [pyplot_barh]: it returns, or it raises (an OverflowError
    for widths near the top of the float range). *)
Definition plot_damage_estimate (pyplot_barh : float -> result unit)
    (pred_damage_inr : float) : result figure :=
  let? _ := pyplot_barh pred_damage_inr in
  Ok (BarhChart "Predicted Flood Damage" "Damage Estimate (₹)"
        {| bar_label := "Estimated Damage"; bar_height := pred_damage_inr;
           bar_color := "#ff6b6b" |}
        ("₹" ++ PyFormat.format_f true 0 pred_damage_inr)).

(** ** The page *)

Inductive text_kind : Type :=
| Title | Header | Subheader | Markdown | Info | Success | Warning | Error
| Write | Spinner.

(** What a Streamlit call puts on the page.  Containers (the sidebar, an
    expander) are recorded by [Sidebar] and by the element that opens
    them; column layout is not recorded. *)
Inductive element : Type :=
| Text (kind : text_kind) (body : string)
| Metric (label value : string)
| NumberInput (label : string)
| Slider (label : string)
| TextInput (label : string)
| Button (label : string)
| Checkbox (label key : string)
| Expander (label : string)
| Pyplot (fig : figure)
| FoliumStatic (m : folium_map) (width height : Z)
| Sidebar (e : element).

(** A run of script code: the elements it wrote, and how it ended. *)
Definition M (A : Type) : Type := list element * result A.

Definition ret {A : Type} (a : A) : M A := ([], Ok a).

Definition bind {A B : Type} (m : M A) (k : A -> M B) : M B :=
  match m with
  | (page, Ok a) => let '(page', r) := k a in ((page ++ page')%list, r)
  | (page, Raise e) => (page, Raise e)
  end.

Notation "x <- m ;; k" := (bind m (fun x => k))
  (at level 61, m at next level, right associativity).
Notation "m ;; k" := (bind m (fun _ => k))
  (at level 61, right associativity).

Definition emit (e : element) : M unit := ([e], Ok tt).

Definition lift {A : Type} (r : result A) : M A := ([], r).

(** [try: body except Exception as e: handler(e)]: what the body wrote
    before raising stays on the page. *)
Definition try_except {A : Type} (body : M A) (handler : exception -> M A) : M A :=
  match body with
  | (page, Ok a) => (page, Ok a)
  | (page, Raise e) => let '(page', r) := handler e in ((page ++ page')%list, r)
  end.

(** Everything [m] writes goes to the sidebar. *)
Definition in_sidebar {A : Type} (m : M A) : M A :=
  (map Sidebar (fst m), snd m).

Definition st (kind : text_kind) (body : string) : M unit := emit (Text kind body).
Definition sidebar (kind : text_kind) (body : string) : M unit :=
  in_sidebar (st kind body).

Definition page_of {A : Type} (m : M A) : list element := fst m.
Definition outcome {A : Type} (m : M A) : result A := snd m.

(** ** Widgets *)

(** The arguments of a [st.number_input] or [st.slider] call. *)
Record number_spec : Type := {
  ns_label : string;
  ns_value : float;
  ns_min : option float;
  ns_max : option float;
  ns_step : option float
}.

(** The value is a number within the bounds the widget was declared
    with: what Streamlit lets the widget return. *)
Definition within (w : number_spec) (v : float) : bool :=
  Float.is_finite v
  && match ns_min w with Some lo => (lo <=? v)%float | None => true end
  && match ns_max w with Some hi => (v <=? hi)%float | None => true end.

(** The state of the input widgets in one run of the script: the number
    each numeric widget holds, the text of each text input and whether
    each button was pressed.  Streamlit identifies a numeric widget by
    its arguments, rejects a declaration whose default lies outside its
    range, and never lets the widget hold a number outside the declared
    range: that is [numbers_within]. *)
Record session : Type := {
  numbers : number_spec -> float;
  texts : string -> string;
  clicked : string -> bool;
  numbers_within :
    forall w : number_spec,
      within w (ns_value w) = true -> within w (numbers w) = true
}.

Definition number_input (s : session) (w : number_spec) : M float :=
  emit (NumberInput (ns_label w)) ;; ret (numbers s w).

Definition slider (s : session) (w : number_spec) : M float :=
  emit (Slider (ns_label w)) ;; ret (numbers s w).

Definition text_input (s : session) (label : string) : M string :=
  emit (TextInput label) ;; ret (texts s label).

Definition button (s : session) (label : string) : M bool :=
  emit (Button label) ;; ret (clicked s label).

Fixpoint for_each {A : Type} (xs : list A) (body : A -> M unit) : M unit :=
  match xs with
  | [] => ret tt
  | x :: rest => body x ;; for_each rest body
  end.

Fixpoint enumerate_from {A : Type} (i : nat) (xs : list A) : list (nat * A) :=
  match xs with
  | [] => []
  | x :: rest => (i, x) :: enumerate_from (S i) rest
  end.

(** The declarations of the ten numeric widgets of [main] (their help
    texts left out). *)
Definition w_rainfall_mm : number_spec :=
  {| ns_label := "Today (mm)"; ns_value := Float.dec 150 1;
     ns_min := Some (Float.dec 0 1); ns_max := None; ns_step := Some (Float.dec 10 1) |}.
Definition w_rain_7d : number_spec :=
  {| ns_label := "7-day (mm)"; ns_value := Float.dec 650 1;
     ns_min := Some (Float.dec 0 1); ns_max := None; ns_step := Some (Float.dec 50 1) |}.
Definition w_rain_30d : number_spec :=
  {| ns_label := "30-day (mm)"; ns_value := Float.dec 1800 1;
     ns_min := Some (Float.dec 0 1); ns_max := None; ns_step := Some (Float.dec 100 1) |}.
Definition w_elevation : number_spec :=
  {| ns_label := "Elevation (m)"; ns_value := Float.dec 2500 1;
     ns_min := Some (Float.dec 0 1); ns_max := None; ns_step := Some (Float.dec 100 1) |}.
Definition w_dist_to_river : number_spec :=
  {| ns_label := "River Distance (km)"; ns_value := Float.dec 15 1;
     ns_min := Some (Float.dec 0 1); ns_max := None; ns_step := Some (Float.dec 1 1) |}.
Definition w_population_density : number_spec :=
  {| ns_label := "Population Density"; ns_value := Float.dec 12000 1;
     ns_min := Some (Float.dec 0 1); ns_max := None; ns_step := Some (Float.dec 1000 1) |}.
Definition w_impervious_frac : number_spec :=
  {| ns_label := "Impervious Surface %"; ns_value := Float.dec 4 1;
     ns_min := Some (Float.dec 0 1); ns_max := Some (Float.dec 10 1);
     ns_step := Some (Float.dec 5 2) |}.
Definition w_land_cover_index : number_spec :=
  {| ns_label := "Land Cover Index"; ns_value := Float.dec 6 1;
     ns_min := Some (Float.dec 0 1); ns_max := Some (Float.dec 10 1);
     ns_step := Some (Float.dec 5 2) |}.
Definition w_lat : number_spec :=
  {| ns_label := "Latitude"; ns_value := Float.dec 185204 4;
     ns_min := None; ns_max := None; ns_step := None |}.
Definition w_lon : number_spec :=
  {| ns_label := "Longitude"; ns_value := Float.dec 738567 4;
     ns_min := None; ns_max := None; ns_step := None |}.

(** Which widget fills which key of the [features] dict. *)
Definition feature_widgets : list (string * number_spec) :=
  [ ("rainfall_mm", w_rainfall_mm); ("rain_7d", w_rain_7d);
    ("rain_30d", w_rain_30d); ("elevation", w_elevation);
    ("dist_to_river", w_dist_to_river);
    ("population_density", w_population_density);
    ("impervious_frac", w_impervious_frac);
    ("land_cover_index", w_land_cover_index) ].

(** ** Building the model input *)

(** [d.get(key)] *)
Fixpoint dict_get {V : Type} (d : list (string * V)) (key : string) : option V :=
  match d with
  | [] => None
  | (k, v) :: rest => if (k =? key)%string then Some v else dict_get rest key
  end.

(** The one row of [pd.DataFrame([features], columns=columns)]: the
    dict's value under each column name, NaN where the dict has no such
    key; keys that are no column are dropped.  No exception. *)
Definition DataFrame (features : list (string * float)) (columns : list string)
    : list float :=
  map (fun c => match dict_get features c with Some v => v | None => Float.nan end)
      columns.

(** ** Risk assessment *)

Inductive tier : Type := Low | Medium | High.

(** The branch taken by the alert of lines 523-545. *)
Definition alert_tier (pred_label : string) (p_high : float) : tier :=
  if (pred_label =? "High")%string || (p_high >? Float.dec 6 1)%float then High
  else if (pred_label =? "Medium")%string || (p_high >? Float.dec 3 1)%float then Medium
  else Low.

Definition risk_assessment (pred_label : string) (p_high : float) : M unit :=
  match alert_tier pred_label p_high with
  | High => st Error critical_alert
  | Medium => st Warning medium_alert
  | Low => st Success low_alert
  end.

(** ** Static reference content *)

Definition contacts : list (string * string * string) :=
  [ ("National Disaster Response Force (NDRF)", "011-24363260", "🚨");
    ("State Disaster Management Authority", "1070", "🏛️");
    ("Rescue Services", "101", "🚑");
    ("Ambulance (Medical Emergency)", "108", "🏥");
    ("Police", "100", "👮");
    ("Fire Department", "102", "🚒") ].

Definition kit_items : list string :=
  [ "💧 Water bottles (3+ days supply)";
    "🔦 Flashlight with extra batteries";
    "💊 Basic medicines & first aid kit";
    "🔋 Power bank & charger";
    "🍫 Dry snacks & non-perishable food";
    "📄 Important documents (waterproof)";
    "💰 Cash & emergency funds";
    "🧥 Warm clothes & blankets";
    "🧴 Hygiene & sanitation items";
    "📱 Emergency contact list" ].

Definition organizations : list (string * string * string) :=
  [ ("Red Cross India", "Emergency relief & medical aid", "https://www.indianredcross.org/");
    ("Goonj", "Material relief & rehabilitation", "https://goonj.org/");
    ("Hemkunt Foundation", "Disaster relief & community support", "https://hemkuntfoundation.com/");
    ("Local Municipal Relief Fund", "Direct local assistance", "#") ].

Definition facts : list string :=
  [ "🌧️ **1 cm increase** in rainfall in low-elevation areas can raise flood chances by 10–15%";
    "🏞️ **Urban areas** with >40% impervious surfaces are 3x more likely to experience flash floods";
    "⏰ **Early warning** systems can reduce flood fatalities by up to 35%";
    "🌳 **Natural vegetation** can absorb up to 90% of rainfall, reducing flood risk significantly";
    "📈 **Climate change** has increased extreme rainfall events by 20% in the last decade" ].

Definition display_emergency_contacts : M unit :=
  sidebar Markdown "---" ;;
  sidebar Header "🆘 Emergency Contacts" ;;
  for_each contacts (fun '(name, number, icon) =>
    sidebar Markdown ("
            <div style='background-color: #f8f9fa; padding: 10px; border-radius: 5px; margin: 5px 0; border-left: 4px solid #dc3545;'>
                <strong style='color: black;'>" ++ icon ++ " " ++ name ++ "</strong><br>
                <span style='color: black;'>📞 " ++ number ++ "</span>
            </div>
            ")).

Definition display_safety_guidelines : M unit :=
  st Markdown "---" ;;
  st Header "🛡️ Flood Safety Guidelines" ;;
  emit (Expander "📋 **Before Flood**") ;;
  st Markdown before_flood ;;
  emit (Expander "🌊 **During Flood**") ;;
  st Markdown during_flood ;;
  emit (Expander "🏠 **After Flood**") ;;
  st Markdown after_flood.

Definition display_emergency_kit : M unit :=
  st Markdown "---" ;;
  st Header "🎒 Emergency Kit Checklist" ;;
  for_each (enumerate_from 0 kit_items) (fun '(i, item) =>
    emit (Checkbox item ("kit_" ++ PyFormat.digits_of_N (N.of_nat i)))).

Definition display_affected_guidelines : M unit :=
  st Markdown "---" ;;
  st Header "🚨 If You Are Affected" ;;
  st Error immediate_actions.

Definition display_help_others : M unit :=
  st Markdown "---" ;;
  st Header "🤝 How You Can Help Others" ;;
  st Info volunteer_intro ;;
  for_each organizations (fun '(name, focus, url) =>
    st Markdown ("
        **" ++ name ++ "**  
        *" ++ focus ++ "*  
        🔗 [Learn More](" ++ url ++ ")
        ")).

Definition display_donation_section : M unit :=
  st Markdown "---" ;;
  st Header "❤️ Support Relief Efforts" ;;
  st Markdown donate_red_cross ;;
  st Markdown donate_hemkunt.

Definition display_awareness_facts : M unit :=
  st Markdown "---" ;;
  st Header "💡 Flood Awareness Facts" ;;
  for_each facts (fun fact => st Info fact).

(** ** The fitted pipelines *)

(** The classifier, as the script uses it on the one-row frame [X]:
    [clf_predict_proba X] is [clf.predict_proba(X)[0]] and [clf_predict X]
    is [int(clf.predict(X)[0])], with the exceptions they may raise. *)
Record classifier : Type := {
  clf_predict_proba : list float -> result (list float);
  clf_predict : list float -> result Z
}.

(** [reg_predict X] is [reg.predict(X)[0]]. *)
Record regressor : Type := {
  reg_predict : list float -> result float
}.

(** ** The script *)

Section Script.

(** [numpy.expm1] on a float64. *)
Variable expm1 : float -> float.
Variable pyplot_barh : float -> result unit.

(** What [joblib.load] gives for the two model files. *)
Variable joblib_load_clf : result classifier.
Variable joblib_load_reg : result regressor.

(** The widgets' state in this run. *)
Variable s : session.

(** One run of [load_models] (the cache of [st.cache_resource] is not
    modelled). *)
Definition load_models : M (option classifier * option regressor) :=
  try_except
    (st Spinner "Loading machine learning models..." ;;
     clf <- lift joblib_load_clf ;;
     reg <- lift joblib_load_reg ;;
     st Success "✅ Models loaded successfully!" ;;
     ret (Some clf, Some reg))
    (fun e =>
     st Error ("❌ Model loading failed: " ++ str e) ;;
     (if contains "lightgbm" (lower (str e))
      then st Info lightgbm_instructions
      else st Info common_solutions) ;;
     ret (None, None)).

Definition create_coordinate_picker : M unit :=
  sidebar Subheader "🎯 Click on Map to Get Coordinates" ;;
  sidebar Markdown picker_instructions ;;
  emit (FoliumStatic coordinate_picker_map 350 400).

(** The body of the [try] of lines 485-577. *)
Definition prediction_results (clf : classifier) (reg : regressor)
    (features : list (string * float)) (lat lon : float) (city_name : string)
    : M unit :=
  let X_input := DataFrame features NUM_FEATURES in
  probas <- lift (clf_predict_proba clf X_input) ;;
  pred_idx <- lift (clf_predict clf X_input) ;;
  pred_label <- lift (getitem_int RISK_LABELS pred_idx) ;;
  pred_log <- lift (reg_predict reg X_input) ;;
  let pred_damage_usd := expm1 pred_log in
  let pred_damage_inr := convert_usd_to_inr pred_damage_usd in
  st Header "📊 Prediction Results" ;;
  emit (Metric "Risk Level" pred_label) ;;
  p_high <- lift (array_item probas 2) ;;
  emit (Metric "High Risk Probability" (PyFormat.format_pct 1 p_high)) ;;
  emit (Metric "Estimated Damage" (format_rupees pred_damage_inr)) ;;
  confidence <- lift (match probas with
                      | [] => Raise (PyExc "ValueError" "max() arg is an empty sequence")
                      | x :: rest => Ok (Float.max_from x rest)
                      end) ;;
  emit (Metric "Model Confidence" (PyFormat.format_pct 1 confidence)) ;;
  st Info ("📍 **Analysis for:** " ++ city_name ++ " at "
           ++ PyFormat.format_f false 6 lat ++ ", " ++ PyFormat.format_f false 6 lon) ;;
  st Subheader "🚨 Risk Assessment" ;;
  risk_assessment pred_label p_high ;;
  st Subheader "📈 Risk Analysis" ;;
  fig <- lift (plot_risk_probabilities probas) ;;
  emit (Pyplot fig) ;;
  damage_fig <- lift (plot_damage_estimate pyplot_barh pred_damage_inr) ;;
  emit (Pyplot damage_fig) ;;
  st Subheader "🗺️ Location Map - Full Screen View" ;;
  st Info map_features ;;
  map_obj <- lift (create_interactive_map lat lon pred_label p_high
                     pred_damage_inr city_name) ;;
  emit (FoliumStatic map_obj 1200 600).

(** Lines 413-453: the eight feature widgets fill the [features] dict. *)
Definition feature_form : M (list (string * float)) :=
  sidebar Subheader "🌧️ Rainfall Data" ;;
  rainfall_mm <- in_sidebar (number_input s w_rainfall_mm) ;;
  rain_7d <- in_sidebar (number_input s w_rain_7d) ;;
  rain_30d <- in_sidebar (number_input s w_rain_30d) ;;
  sidebar Subheader "🏔️ Geographic Features" ;;
  elevation <- in_sidebar (number_input s w_elevation) ;;
  dist_to_river <- in_sidebar (number_input s w_dist_to_river) ;;
  sidebar Subheader "🏙️ Urban Features" ;;
  population_density <- in_sidebar (number_input s w_population_density) ;;
  impervious_frac <- in_sidebar (slider s w_impervious_frac) ;;
  land_cover_index <- in_sidebar (slider s w_land_cover_index) ;;
  ret [ ("rainfall_mm", rainfall_mm); ("rain_7d", rain_7d);
        ("rain_30d", rain_30d); ("elevation", elevation);
        ("dist_to_river", dist_to_river);
        ("population_density", population_density);
        ("impervious_frac", impervious_frac);
        ("land_cover_index", land_cover_index) ].

Definition main : M unit :=
  models <- load_models ;;
  match models with
  | (Some clf, Some reg) =>
      sidebar Header "🔧 Prediction Inputs" ;;
      features <- feature_form ;;
      sidebar Subheader "🗺️ Location Details" ;;
      create_coordinate_picker ;;
      sidebar Markdown "**Enter coordinates manually or use map above:**" ;;
      lat <- in_sidebar (number_input s w_lat) ;;
      lon <- in_sidebar (number_input s w_lon) ;;
      sidebar Info ("📍 Using coordinates: " ++ PyFormat.format_f false 6 lat
                    ++ ", " ++ PyFormat.format_f false 6 lon) ;;
      city_name <- in_sidebar (text_input s "Location Name:") ;;
      in_sidebar
        (emit (Expander "📋 Feature Summary") ;;
         st Write ("**Location:**" ++ " " ++ PyFormat.format_f false 6 lat
                   ++ ", " ++ PyFormat.format_f false 6 lon) ;;
         for_each features (fun '(feature, value) =>
           st Write ("**" ++ feature ++ ":** " ++ PyFormat.format_f false 2 value))) ;;
      sidebar Markdown "---" ;;
      pressed <- in_sidebar (button s "🚀 Predict Flood Risk") ;;
      (if pressed : bool then
         st Spinner "Analyzing flood risk..." ;;
         try_except
           (prediction_results clf reg features lat lon city_name)
           (fun e =>
            st Error ("Prediction error: " ++ str e) ;;
            st Info "Please check all input values and try again.")
       else ret tt) ;;
      display_emergency_contacts ;;
      display_safety_guidelines ;;
      display_emergency_kit ;;
      display_affected_guidelines ;;
      display_help_others ;;
      display_donation_section ;;
      display_awareness_facts ;;
      sidebar Markdown "---" ;;
      sidebar Info how_to_use
  | _ =>
      st Info installation_instructions ;;
      display_emergency_contacts ;;
      display_safety_guidelines ;;
      display_emergency_kit ;;
      display_affected_guidelines ;;
      display_help_others ;;
      display_donation_section ;;
      display_awareness_facts
  end.

(** The whole script: the lines above [main], then [main]. *)
Definition script : M unit :=
  st Warning banner_warning ;;
  st Title page_title ;;
  st Success compat_notice ;;
  main.

End Script.

(** ** Vocabulary of the statements *)

(** *** Tiers *)

(** Severity order of the tiers. *)
Definition severity (t : tier) : nat :=
  match t with Low => 0 | Medium => 1 | High => 2 end.

Definition tier_max (t1 t2 : tier) : tier :=
  if (severity t1 <? severity t2)%nat then t2 else t1.

(** The tier the predicted class stands for, and the tier the probability
    of the High class reaches on its own. *)
Definition class_tier (pred_label : string) : tier :=
  if (pred_label =? "High")%string then High
  else if (pred_label =? "Medium")%string then Medium
  else Low.

Definition prob_tier (p_high : float) : tier :=
  if (p_high >? Float.dec 6 1)%float then High
  else if (p_high >? Float.dec 3 1)%float then Medium
  else Low.

(** *** Pages *)

(** The seven reference sections, in the order both exits of [main] show
    them. *)
Definition static_sections : M unit :=
  display_emergency_contacts ;;
  display_safety_guidelines ;;
  display_emergency_kit ;;
  display_affected_guidelines ;;
  display_help_others ;;
  display_donation_section ;;
  display_awareness_facts.

(** What the seven sections are to put on the page, written out element
    by element: the contact cards in the sidebar, the three folded
    guideline texts, the ten checkboxes of the kit, the box of immediate
    actions, the organisations, the two donation texts and the five
    facts. *)
Definition contact_card (name number icon : string) : string :=
  "
            <div style='background-color: #f8f9fa; padding: 10px; border-radius: 5px; margin: 5px 0; border-left: 4px solid #dc3545;'>
                <strong style='color: black;'>" ++ icon ++ " " ++ name ++ "</strong><br>
                <span style='color: black;'>📞 " ++ number ++ "</span>
            </div>
            ".

Definition organization_entry (name focus url : string) : string :=
  "
        **" ++ name ++ "**  
        *" ++ focus ++ "*  
        🔗 [Learn More](" ++ url ++ ")
        ".

Definition reference_content : list element :=
  ([ Sidebar (Text Markdown "---");
     Sidebar (Text Header "🆘 Emergency Contacts");
     Sidebar (Text Markdown
       (contact_card "National Disaster Response Force (NDRF)" "011-24363260" "🚨"));
     Sidebar (Text Markdown
       (contact_card "State Disaster Management Authority" "1070" "🏛️"));
     Sidebar (Text Markdown (contact_card "Rescue Services" "101" "🚑"));
     Sidebar (Text Markdown (contact_card "Ambulance (Medical Emergency)" "108" "🏥"));
     Sidebar (Text Markdown (contact_card "Police" "100" "👮"));
     Sidebar (Text Markdown (contact_card "Fire Department" "102" "🚒")) ]
   ++ [ Text Markdown "---";
        Text Header "🛡️ Flood Safety Guidelines";
        Expander "📋 **Before Flood**"; Text Markdown before_flood;
        Expander "🌊 **During Flood**"; Text Markdown during_flood;
        Expander "🏠 **After Flood**"; Text Markdown after_flood ]
   ++ [ Text Markdown "---";
        Text Header "🎒 Emergency Kit Checklist";
        Checkbox "💧 Water bottles (3+ days supply)" "kit_0";
        Checkbox "🔦 Flashlight with extra batteries" "kit_1";
        Checkbox "💊 Basic medicines & first aid kit" "kit_2";
        Checkbox "🔋 Power bank & charger" "kit_3";
        Checkbox "🍫 Dry snacks & non-perishable food" "kit_4";
        Checkbox "📄 Important documents (waterproof)" "kit_5";
        Checkbox "💰 Cash & emergency funds" "kit_6";
        Checkbox "🧥 Warm clothes & blankets" "kit_7";
        Checkbox "🧴 Hygiene & sanitation items" "kit_8";
        Checkbox "📱 Emergency contact list" "kit_9" ]
   ++ [ Text Markdown "---";
        Text Header "🚨 If You Are Affected";
        Text Error immediate_actions ]
   ++ [ Text Markdown "---";
        Text Header "🤝 How You Can Help Others";
        Text Info volunteer_intro;
        Text Markdown (organization_entry "Red Cross India"
                         "Emergency relief & medical aid"
                         "https://www.indianredcross.org/");
        Text Markdown (organization_entry "Goonj" "Material relief & rehabilitation"
                         "https://goonj.org/");
        Text Markdown (organization_entry "Hemkunt Foundation"
                         "Disaster relief & community support"
                         "https://hemkuntfoundation.com/");
        Text Markdown (organization_entry "Local Municipal Relief Fund"
                         "Direct local assistance" "#") ]
   ++ [ Text Markdown "---";
        Text Header "❤️ Support Relief Efforts";
        Text Markdown donate_red_cross;
        Text Markdown donate_hemkunt ]
   ++ [ Text Markdown "---";
        Text Header "💡 Flood Awareness Facts";
        Text Info "🌧️ **1 cm increase** in rainfall in low-elevation areas can raise flood chances by 10–15%";
        Text Info "🏞️ **Urban areas** with >40% impervious surfaces are 3x more likely to experience flash floods";
        Text Info "⏰ **Early warning** systems can reduce flood fatalities by up to 35%";
        Text Info "🌳 **Natural vegetation** can absorb up to 90% of rainfall, reducing flood risk significantly";
        Text Info "📈 **Climate change** has increased extreme rainfall events by 20% in the last decade" ])%list.

(** A run ends normally and its page holds the seven reference sections. *)
Definition shows_reference (m : M unit) : Prop :=
  outcome m = Ok tt
  /\ exists before after,
       page_of m = (before ++ reference_content ++ after)%list.

(** What [load_models] writes when [joblib.load] raises [e]. *)
Definition load_failure_report (e : exception) : list element :=
  [ Text Spinner "Loading machine learning models...";
    Text Error ("❌ Model loading failed: " ++ str e);
    Text Info (if contains "lightgbm" (lower (str e))
               then lightgbm_instructions else common_solutions) ].

(** The element is a rendered map whose marker has this colour and whose
    circle has this radius. *)
Definition is_map_with (icon : string) (radius : Z) (x : element) : bool :=
  match x with
  | FoliumStatic m _ _ =>
      match children m with
      | [Marker mk; Circle c] =>
          (icon_color mk =? icon)%string && (circle_radius c =? radius)%Z
      | _ => false
      end
  | _ => false
  end.

(** *** Features *)

(** The features a session gives. *)
Definition features_of (s : session) : list (string * float) :=
  map (fun '(key, w) => (key, numbers s w)) feature_widgets.

(** *** Exact values *)

(** The exact value of a finite float, as a fraction [num / den]. *)
Definition exact_value (x : float) : option (Z * positive) :=
  match x with
  | S754_zero _ => Some (0, 1%positive)
  | S754_finite sg m e =>
      let n := if sg then Zneg m else Zpos m in
      match e with
      | Zneg k => Some (n, (2 ^ k)%positive)
      | _ => Some (n * 2 ^ e, 1%positive)
      end
  | _ => None
  end.

(** [x] is the float of the positive whole number [v], below 2^53: a
    53-bit mantissa [m] and an exponent [e] with [m * 2^e = v]. *)
Definition whole (x : float) (v : Z) : Prop :=
  exists m e, x = S754_finite false m e /\ digits2_pos m = 53%positive
              /\ -52 <= e <= 0 /\ Zpos m = v * 2 ^ (- e).

(** A shift record with no bit lost. *)
Definition exact_rec (m : Z) : shr_record :=
  {| shr_m := m; shr_r := false; shr_s := false |}.

(** Case analysis on the comparisons of a goal. *)
Ltac split_compare :=
  repeat match goal with
         | |- context [Z.compare ?x ?y] => destruct (Z.compare_spec x y)
         | |- context [Pos.compare_cont Eq ?x ?y] =>
             change (Pos.compare_cont Eq x y) with (Pos.compare x y);
             destruct (Pos.compare_spec x y)
         end.

(** ** Scenarios

    The default form, and the models of the end-to-end example: class
    Low, probabilities 0.7, 0.2, 0.1, log-damage 9.2. *)

Definition default_session : session :=
  {| numbers := ns_value;
     texts := fun _ => "Prediction Location";
     clicked := fun _ => true;
     numbers_within := fun _ H => H |}.

Definition scenario_clf : classifier :=
  {| clf_predict_proba := fun _ => Ok [Float.dec 7 1; Float.dec 2 1; Float.dec 1 1];
     clf_predict := fun _ => Ok 0 |}.

Definition scenario_reg : regressor :=
  {| reg_predict := fun _ => Ok (Float.dec 92 1) |}.

(** The float nearest to [e^9.2 - 1]: 9896.129058743909. *)
Definition expm1_of_9_2 : float := S754_finite false 5440454485030445 (-39).

Definition scenario_expm1 (y : float) : float := expm1_of_9_2.

(** A matplotlib that draws every bar. *)
Definition scenario_barh (width : float) : result unit := Ok tt.

(** A classifier that answers class Low with probabilities 0.4, 0.25,
    0.35: Low is the most likely class, and P(High) is above 0.3. *)
Definition borderline_clf : classifier :=
  {| clf_predict_proba := fun _ => Ok [Float.dec 4 1; Float.dec 25 2; Float.dec 35 2];
     clf_predict := fun _ => Ok 0 |}.

(** A classifier whose [predict_proba] raises. *)
Definition failing_clf : classifier :=
  {| clf_predict_proba := fun _ => Raise (PyExc "ValueError" "Input contains NaN.");
     clf_predict := fun _ => Ok 0 |}.

(** ** Further vocabulary *)

(** *** Floats and digits *)

Definition is_comma (c : ascii) : bool := (c =? ",")%char.

(** The text without its thousands separators. *)
Definition strip_commas (s : string) : string :=
  string_of_list_ascii (filter (fun c => negb (is_comma c)) (list_ascii_of_string s)).

Definition comma_free (s : string) : Prop :=
  forallb (fun c => negb (is_comma c)) (list_ascii_of_string s) = true.

(** *** The results of a prediction *)

(** A metric, a chart or the full-width map: what only a prediction
    shows. *)
Definition is_result (x : element) : bool :=
  match x with
  | Metric _ _ | Pyplot _ => true
  | FoliumStatic _ width _ => (width =? 1200)%Z
  | _ => false
  end.

(** One of the three alert boxes of the risk assessment. *)
Definition is_alert (x : element) : bool :=
  match x with
  | Text Error body => (body =? critical_alert)%string
  | Text Warning body => (body =? medium_alert)%string
  | Text Success body => (body =? low_alert)%string
  | _ => false
  end.

(** The alert box of each tier. *)
Definition alert_box (t : tier) : element :=
  match t with
  | High => Text Error critical_alert
  | Medium => Text Warning medium_alert
  | Low => Text Success low_alert
  end.

(** The [except] clause of lines 579-581. *)
Definition prediction_handler (e : exception) : M unit :=
  st Error ("Prediction error: " ++ str e) ;;
  st Info "Please check all input values and try again.".

(** *** Further scenarios *)

(** A classifier that looks only at the number of columns it is given. *)
Definition eight_column_clf : classifier :=
  {| clf_predict_proba := fun X =>
       if (List.length X =? 8)%nat
       then Ok [Float.dec 7 1; Float.dec 2 1; Float.dec 1 1]
       else Raise (PyExc "ValueError" "X has a wrong number of features");
     clf_predict := fun X =>
       if (List.length X =? 8)%nat then Ok 0
       else Raise (PyExc "ValueError" "X has a wrong number of features") |}.

(** Classifiers fitted on four classes and on two. *)
Definition four_class_clf : classifier :=
  {| clf_predict_proba := fun _ =>
       Ok [Float.dec 1 1; Float.dec 2 1; Float.dec 3 1; Float.dec 4 1];
     clf_predict := fun _ => Ok 3 |}.

Definition two_class_clf : classifier :=
  {| clf_predict_proba := fun _ => Ok [Float.dec 8 1; Float.dec 2 1];
     clf_predict := fun _ => Ok 0 |}.

(** The default form, its button not pressed. *)
Definition idle_session : session :=
  {| numbers := ns_value;
     texts := texts default_session;
     clicked := fun _ => false;
     numbers_within := fun _ H => H |}.

(** What [numpy.expm1] returns at -40.0, -38.0, -1.0, 9.2 and 705.2:
    -1.0 twice, -0.6321205588285577, 9896.129058743909 and
    1.8385211834346365e+306.  The scenarios ask for no other value (NaN
    stands for them). *)
Definition expm1_of_minus_1 : float := S754_finite true 5693635826387044 (-53).

Definition expm1_of_705_2 : float := S754_finite false 5895529576073522 965.

Definition numpy_expm1_samples (y : float) : float :=
  if SFeqb y (Float.of_Z (-40)) then Float.of_Z (-1)
  else if SFeqb y (Float.of_Z (-38)) then Float.of_Z (-1)
  else if SFeqb y (Float.of_Z (-1)) then expm1_of_minus_1
  else if SFeqb y (Float.dec 92 1) then expm1_of_9_2
  else if SFeqb y (Float.dec 7052 1) then expm1_of_705_2
  else Float.nan.

(** A regressor that answers [r] whatever the row. *)
Definition constant_reg (r : float) : regressor :=
  {| reg_predict := fun _ => Ok r |}.

(** A matplotlib that cannot lay out a bar wider than 1e308. *)
Definition overflowing_barh (width : float) : result unit :=
  if (width >? Float.of_Z (10 ^ 308))%float
  then Raise (PyExc "OverflowError" "cannot convert float infinity to integer")
  else Ok tt.

(** A load failure that names the library in capitals. *)
Definition lightgbm_missing : exception :=
  PyExc "ImportError" "LightGBM is required to load this model".

(** * Properties *)

(** ** Order of floats *)


(** [c < x] and [x <= y] give [c < y], NaN and infinities included. *)
Lemma ltb_leb_trans (c x y : float) :
  SFltb c x = true -> SFleb x y = true -> SFltb c y = true.
Proof.
  unfold SFltb, SFleb, SFcompare.
  destruct c as [sc | sc | | sc mc ec], x as [sx | sx | | sx mx ex],
           y as [sy | sy | | sy my ey];
    try destruct sc; try destruct sx; try destruct sy;
    try discriminate; try reflexivity;
    split_compare; simpl; intros; subst; try discriminate; try reflexivity; lia.
Qed.

Lemma gtb_monotone (c x y : float) :
  (x >? c)%float = true -> (x <=? y)%float = true -> (y >? c)%float = true.
Proof. unfold Float.gtb, Float.leb. apply ltb_leb_trans. Qed.

(** ** C4: the tier of the alert *)

(** The branch of lines 523-545 that is taken, by the precedence of its
    tests. *)
Lemma risk_assessment_cases (pred_label : string) (p_high : float) :
  (pred_label = "High" \/ (p_high >? Float.dec 6 1)%float = true ->
   alert_tier pred_label p_high = High)
  /\ (~ (pred_label = "High" \/ (p_high >? Float.dec 6 1)%float = true) ->
      pred_label = "Medium" \/ (p_high >? Float.dec 3 1)%float = true ->
      alert_tier pred_label p_high = Medium)
  /\ (~ (pred_label = "High" \/ (p_high >? Float.dec 6 1)%float = true) ->
      ~ (pred_label = "Medium" \/ (p_high >? Float.dec 3 1)%float = true) ->
      alert_tier pred_label p_high = Low).
Proof.
  unfold alert_tier.
  destruct (String.eqb_spec pred_label "High") as [HH | HH];
    destruct (p_high >? Float.dec 6 1)%float eqn:H6;
    destruct (String.eqb_spec pred_label "Medium") as [HM | HM];
    destruct (p_high >? Float.dec 3 1)%float eqn:H3;
    simpl; repeat split; intros; try tauto;
    try (exfalso; intuition congruence).
Qed.

Lemma alert_tier_max (pred_label : string) (p_high : float) :
  alert_tier pred_label p_high = tier_max (class_tier pred_label) (prob_tier p_high).
Proof.
  unfold alert_tier, class_tier, prob_tier, tier_max.
  destruct (pred_label =? "High")%string; destruct (p_high >? Float.dec 6 1)%float eqn:H6;
    destruct (pred_label =? "Medium")%string;
    destruct (p_high >? Float.dec 3 1)%float eqn:H3; try reflexivity.
Qed.

Lemma prob_tier_monotone (p1 p2 : float) :
  (p1 <=? p2)%float = true ->
  (severity (prob_tier p1) <= severity (prob_tier p2))%nat.
Proof.
  intros Hle. unfold prob_tier.
  destruct (p1 >? Float.dec 6 1)%float eqn:H6.
  - rewrite (gtb_monotone _ _ _ H6 Hle). simpl. lia.
  - destruct (p1 >? Float.dec 3 1)%float eqn:H3.
    + rewrite (gtb_monotone _ _ _ H3 Hle).
      destruct (p2 >? Float.dec 6 1)%float; simpl; lia.
    + simpl. lia.
Qed.

(** C4: for a fixed predicted class the tier never becomes less severe
    when P(High) rises; the tier is the more severe of the class's tier
    and the tier the probability reaches; with class Low the tier is Low
    at 0.2, Medium at 0.35 and High at 0.65. *)
Theorem alert_tier_monotone :
  (forall (pred_label : string) (p1 p2 : float),
      (p1 <=? p2)%float = true ->
      (severity (alert_tier pred_label p1) <= severity (alert_tier pred_label p2))%nat)
  /\ (forall (pred_label : string) (p_high : float),
         alert_tier pred_label p_high
         = tier_max (class_tier pred_label) (prob_tier p_high))
  /\ alert_tier "Low" (Float.dec 2 1) = Low
  /\ alert_tier "Low" (Float.dec 35 2) = Medium
  /\ alert_tier "Low" (Float.dec 65 2) = High.
Proof.
  split; [| split; [exact alert_tier_max | repeat split; vm_compute; reflexivity]].
  intros pred_label p1 p2 Hle.
  rewrite !alert_tier_max.
  pose proof (prob_tier_monotone p1 p2 Hle) as Hp.
  unfold tier_max.
  destruct (class_tier pred_label), (prob_tier p1), (prob_tier p2);
    simpl in *; lia.
Qed.

Lemma alert_tier_monotone_witness :
  (severity (alert_tier "Low" (Float.dec 2 1))
   <= severity (alert_tier "Low" (Float.dec 65 2)))%nat.
Proof.
  apply (proj1 alert_tier_monotone "Low" (Float.dec 2 1) (Float.dec 65 2)).
  vm_compute. reflexivity.
Defined.

(** ** C3: the rupee formatter *)





Lemma substring_whole (s : string) : substring 0 (String.length s) s = s.
Proof. induction s as [| c s IH]; simpl; [reflexivity | now rewrite IH]. Qed.

Lemma append_empty_r (s : string) : s ++ "" = s.
Proof. induction s as [| c s IH]; simpl; [reflexivity | now rewrite IH]. Qed.




(** ** The map function *)


Lemma getitem_RISK_COLORS (risk_level color : string) :
  getitem RISK_COLORS risk_level = Ok color ->
  (risk_level = "Low" /\ color = "#28a745")
  \/ (risk_level = "Medium" /\ color = "#ffc107")
  \/ (risk_level = "High" /\ color = "#dc3545").
Proof.
  unfold RISK_COLORS. cbn [getitem].
  destruct (String.eqb_spec "Low" risk_level) as [<- | _];
    [intros [= <-]; auto |].
  destruct (String.eqb_spec "Medium" risk_level) as [<- | _];
    [intros [= <-]; auto |].
  destruct (String.eqb_spec "High" risk_level) as [<- | _];
    [intros [= <-]; auto |].
  discriminate.
Qed.


(** A NaN coordinate is refused before anything else is looked at. *)
Lemma create_interactive_map_nan (lat lon : float) (risk_level : string)
    (p_high pred_damage_inr : float) (city_name : string) :
  is_nan lat = true \/ is_nan lon = true ->
  create_interactive_map lat lon risk_level p_high pred_damage_inr city_name
  = Raise (PyExc "ValueError" "Location values cannot contain NaNs.").
Proof.
  intros H. unfold create_interactive_map, validate_location.
  destruct H as [-> | ->]; [reflexivity |].
  now rewrite orb_true_r.
Qed.

(** What a returned map was made of. *)
Lemma create_interactive_map_inv (lat lon : float) (risk_level : string)
    (p_high pred_damage_inr : float) (city_name : string) (m : folium_map) :
  create_interactive_map lat lon risk_level p_high pred_damage_inr city_name = Ok m ->
  is_nan lat = false /\ is_nan lon = false
  /\ exists mk c color,
       getitem RISK_COLORS risk_level = Ok color
       /\ children m = [Marker mk; Circle c]
       /\ (icon_color mk, circle_radius c)
          = (if (risk_level =? "High")%string then ("red", 3000)
             else if (risk_level =? "Medium")%string then ("orange", 2000)
             else ("green", 1000))
       /\ circle_color c = color /\ circle_location c = (lat, lon)
       /\ marker_location mk = (lat, lon).
Proof.
  unfold create_interactive_map, validate_location.
  destruct (is_nan lat); [discriminate |].
  destruct (is_nan lon); [discriminate |]. cbn [orb result_bind].
  destruct (getitem RISK_COLORS risk_level) as [color | e] eqn:Hcol.
  2:{ destruct (risk_level =? "High")%string;
        [| destruct (risk_level =? "Medium")%string]; discriminate. }
  intros H. split; [reflexivity |]. split; [reflexivity |].
  destruct (risk_level =? "High")%string;
    [| destruct (risk_level =? "Medium")%string];
    cbn [result_bind] in H; injection H as <-;
    eexists _, _, color; cbn; repeat split.
Qed.

(** ** Runs of script code *)

Lemma page_of_bind {A B : Type} (m : M A) (k : A -> M B) (a : A) :
  outcome m = Ok a -> page_of (bind m k) = (page_of m ++ page_of (k a))%list.
Proof.
  destruct m as [page r]. simpl. intros ->. unfold bind.
  destruct (k a) as [page' r']. reflexivity.
Qed.

Lemma outcome_bind {A B : Type} (m : M A) (k : A -> M B) (a : A) :
  outcome m = Ok a -> outcome (bind m k) = outcome (k a).
Proof.
  destruct m as [page r]. simpl. intros ->. unfold bind.
  destruct (k a) as [page' r']. reflexivity.
Qed.

Lemma In_bind_now {A B : Type} (m : M A) (k : A -> M B) (x : element) :
  In x (page_of m) -> In x (page_of (bind m k)).
Proof.
  destruct m as [page [a | e]]; simpl; intros H.
  - destruct (k a) as [page' r']. simpl. apply in_or_app. now left.
  - exact H.
Qed.

Lemma In_bind_later {A B : Type} (m : M A) (k : A -> M B) (a : A) (x : element) :
  outcome m = Ok a -> In x (page_of (k a)) -> In x (page_of (bind m k)).
Proof.
  intros Hm Hx. rewrite (page_of_bind m k a Hm). apply in_or_app. now right.
Qed.

(** A handler that cannot raise makes the [try] statement end normally. *)
Lemma outcome_try_except (body : M unit) (handler : exception -> M unit) :
  (forall e, outcome (handler e) = Ok tt) ->
  outcome (try_except body handler) = Ok tt.
Proof.
  intros Hh. destruct body as [page [[] | e]]; simpl; [reflexivity |].
  specialize (Hh e). destruct (handler e) as [page' r']. exact Hh.
Qed.

Lemma In_bind_inv {A B : Type} (m : M A) (k : A -> M B) (x : element) :
  In x (page_of (bind m k)) ->
  In x (page_of m) \/ exists a, outcome m = Ok a /\ In x (page_of (k a)).
Proof.
  destruct m as [page [a | e]]; cbn [bind page_of outcome fst snd].
  - destruct (k a) as [page' r] eqn:E. cbn [fst]. intros H.
    apply in_app_or in H as [H | H]; [now left |].
    right. exists a. split; [reflexivity |]. now rewrite E.
  - intros H. now left.
Qed.

Lemma filter_bind {A B : Type} (f : element -> bool) (m : M A) (k : A -> M B) (a : A) :
  outcome m = Ok a ->
  filter f (page_of (bind m k)) = (filter f (page_of m) ++ filter f (page_of (k a)))%list.
Proof. intros H. now rewrite (page_of_bind m k a H), filter_app. Qed.

Lemma bind_lift_ok {A B : Type} (a : A) (k : A -> M B) :
  bind (lift (Ok a)) k = k a.
Proof. unfold bind, lift. now destruct (k a). Qed.

Lemma bind_lift_raise {A B : Type} (e : exception) (k : A -> M B) :
  bind (lift (Raise e)) k = ([], Raise e).
Proof. reflexivity. Qed.

Lemma outcome_risk_assessment (pred_label : string) (p_high : float) :
  outcome (risk_assessment pred_label p_high) = Ok tt.
Proof. unfold risk_assessment. now destruct (alert_tier pred_label p_high). Qed.

Lemma outcome_bind_raise {A B : Type} (m : M A) (k : A -> M B) (e : exception) :
  outcome m = Raise e -> outcome (bind m k) = Raise e.
Proof. destruct m as [page r]. simpl. now intros ->. Qed.

(** One statement further in the run whose outcome [H] speaks of. *)
Ltac run_step_in H :=
  first [ rewrite (outcome_bind _ _ tt (outcome_risk_assessment _ _)) in H
        | erewrite outcome_bind in H by reflexivity ];
  cbv beta in H.

Ltac run_step :=
  first [ rewrite (outcome_bind _ _ tt (outcome_risk_assessment _ _))
        | erewrite outcome_bind by reflexivity ];
  cbv beta.

(** The run whose normal end [H] asserts raises. *)
Ltac run_raises_in H :=
  repeat run_step_in H;
  first [ discriminate H
        | erewrite outcome_bind_raise in H by reflexivity; discriminate H ].


(** ** The class labels *)

Lemma RISK_LABELS_range (idx : Z) (label : string) :
  getitem_int RISK_LABELS idx = Ok label <->
  (idx = 0 /\ label = "Low") \/ (idx = 1 /\ label = "Medium")
  \/ (idx = 2 /\ label = "High").
Proof.
  unfold RISK_LABELS. cbn [getitem_int]. split.
  - destruct (Z.eqb_spec 0 idx) as [<- | N0]; [intros [= <-]; auto |].
    destruct (Z.eqb_spec 1 idx) as [<- | N1]; [intros [= <-]; auto |].
    destruct (Z.eqb_spec 2 idx) as [<- | N2]; [intros [= <-]; auto |].
    discriminate.
  - intros [[-> ->] | [[-> ->] | [-> ->]]]; reflexivity.
Qed.

Lemma RISK_LABELS_outside (idx : Z) :
  ~ (0 <= idx <= 2) ->
  getitem_int RISK_LABELS idx = Raise (PyExc "KeyError" (repr_Z idx)).
Proof.
  intros H. unfold RISK_LABELS. cbn [getitem_int].
  destruct (Z.eqb_spec 0 idx); [lia |].
  destruct (Z.eqb_spec 1 idx); [lia |].
  destruct (Z.eqb_spec 2 idx); [lia |]. reflexivity.
Qed.

(** ** C7: a failed model load *)

(** The seven display functions write the reference content, element
    for element. *)
Lemma static_sections_page : page_of static_sections = reference_content.
Proof. vm_compute. reflexivity. Qed.

Section LoadFailure.

Variable expm1 : float -> float.
Variable pyplot_barh : float -> result unit.
Variable joblib_load_clf : result classifier.
Variable joblib_load_reg : result regressor.
Variable s : session.


Lemma main_after_load_failure (e : exception) :
  joblib_load_clf = Raise e
  \/ (exists clf, joblib_load_clf = Ok clf /\ joblib_load_reg = Raise e) ->
  main expm1 pyplot_barh joblib_load_clf joblib_load_reg s
  = ((load_failure_report e ++ [Text Info installation_instructions]
      ++ reference_content)%list, Ok tt).
Proof.
  rewrite <- static_sections_page.
  intros [Hc | (clf & Hc & Hr)]; unfold main, load_models, load_failure_report;
    rewrite Hc; try rewrite Hr; destruct e as [cls msg];
    cbv beta iota delta [try_except bind lift st emit ret str];
    destruct (contains "lightgbm" (lower msg)); reflexivity.
Qed.

(** C7: when either [joblib.load] raises, whatever the exception, [main]
    and the whole script end normally; the page shows the error message
    with the exception's text and, after it, the whole reference
    content: the six emergency contacts, the safety guidelines, the ten
    items of the emergency kit, the immediate actions, the organisations,
    the donation texts and the five awareness facts. *)
Theorem load_failure_is_reported (e : exception) :
  joblib_load_clf = Raise e
  \/ (exists clf, joblib_load_clf = Ok clf /\ joblib_load_reg = Raise e) ->
  outcome (main expm1 pyplot_barh joblib_load_clf joblib_load_reg s) = Ok tt
  /\ outcome (script expm1 pyplot_barh joblib_load_clf joblib_load_reg s) = Ok tt
  /\ page_of (main expm1 pyplot_barh joblib_load_clf joblib_load_reg s)
     = (load_failure_report e ++ [Text Info installation_instructions]
        ++ reference_content)%list
  /\ In (Text Error ("❌ Model loading failed: " ++ str e))
        (page_of (script expm1 pyplot_barh joblib_load_clf joblib_load_reg s))
  /\ (exists before,
        page_of (script expm1 pyplot_barh joblib_load_clf joblib_load_reg s)
        = (before ++ reference_content)%list).
Proof.
  intros H. pose proof (main_after_load_failure e H) as E.
  unfold script. rewrite E. cbn [outcome page_of fst snd].
  split; [reflexivity |]. split; [reflexivity |]. split; [reflexivity |].
  split.
  - cbn. auto 10.
  - exists ([Text Warning banner_warning; Text Title page_title;
             Text Success compat_notice] ++ load_failure_report e
            ++ [Text Info installation_instructions])%list.
    reflexivity.
Qed.

End LoadFailure.

Lemma load_failure_is_reported_witness :
  outcome (main scenario_expm1 scenario_barh
             (Raise (PyExc "ModuleNotFoundError" "No module named 'lightgbm'"))
             (Ok scenario_reg) default_session) = Ok tt
  /\ In (Text Error "❌ Model loading failed: No module named 'lightgbm'")
        (page_of (script scenario_expm1 scenario_barh
                    (Raise (PyExc "ModuleNotFoundError" "No module named 'lightgbm'"))
                    (Ok scenario_reg) default_session))
  /\ In (Sidebar (Text Markdown (contact_card "Police" "100" "👮")))
        (page_of (main scenario_expm1 scenario_barh
                    (Raise (PyExc "ModuleNotFoundError" "No module named 'lightgbm'"))
                    (Ok scenario_reg) default_session)).
Proof.
  pose proof (load_failure_is_reported scenario_expm1 scenario_barh
                (Raise (PyExc "ModuleNotFoundError" "No module named 'lightgbm'"))
                (Ok scenario_reg) default_session
                (PyExc "ModuleNotFoundError" "No module named 'lightgbm'")
                (or_introl eq_refl)) as (H1 & _ & H3 & H4 & _).
  split; [exact H1 |]. split; [exact H4 |].
  rewrite H3. apply in_or_app. right. apply in_or_app. right.
  unfold reference_content. apply in_or_app. left. do 6 right. left. reflexivity.
Defined.


(** ** C2: the damage shown *)

Section Damage.

Variable expm1 : float -> float.
Variable pyplot_barh : float -> result unit.

(** C2: when the two pipelines answer, the "Estimated Damage" metric is
    the rupee rendering of [expm1(r) * 83.0], [r] being the regressor's
    output; with the models of the end-to-end example, and [expm1(9.2)]
    being the float nearest to e^9.2 - 1, the metric reads 8.21 lakh and
    the alert is the Low one. *)
Theorem estimated_damage_shown :
  USD_TO_INR = Float.of_Z 83
  /\ (forall (clf : classifier) (reg : regressor) (features : list (string * float))
             (lat lon : float) (city_name : string)
             (probas : list float) (pred_idx : Z) (pred_label : string)
             (r p_high : float),
         clf_predict_proba clf (DataFrame features NUM_FEATURES) = Ok probas ->
         clf_predict clf (DataFrame features NUM_FEATURES) = Ok pred_idx ->
         getitem_int RISK_LABELS pred_idx = Ok pred_label ->
         reg_predict reg (DataFrame features NUM_FEATURES) = Ok r ->
         array_item probas 2 = Ok p_high ->
         In (Metric "Estimated Damage" (format_rupees (expm1 r * USD_TO_INR)%float))
            (page_of (prediction_results expm1 pyplot_barh clf reg features lat lon city_name)))
  /\ (expm1 (Float.dec 92 1) = expm1_of_9_2 ->
      let run := prediction_results expm1 pyplot_barh scenario_clf scenario_reg
                   (features_of default_session)
                   (Float.dec 185204 4) (Float.dec 738567 4) "Pune" in
      In (Metric "Estimated Damage" "₹8.21 lakh") (page_of run)
      /\ alert_tier "Low" (Float.dec 1 1) = Low).
Proof.
  assert (G : forall (clf : classifier) (reg : regressor)
                (features : list (string * float))
                (lat lon : float) (city_name : string)
                (probas : list float) (pred_idx : Z) (pred_label : string)
                (r p_high : float),
             clf_predict_proba clf (DataFrame features NUM_FEATURES) = Ok probas ->
             clf_predict clf (DataFrame features NUM_FEATURES) = Ok pred_idx ->
             getitem_int RISK_LABELS pred_idx = Ok pred_label ->
             reg_predict reg (DataFrame features NUM_FEATURES) = Ok r ->
             array_item probas 2 = Ok p_high ->
             In (Metric "Estimated Damage" (format_rupees (expm1 r * USD_TO_INR)%float))
                (page_of (prediction_results expm1 pyplot_barh clf reg features lat lon city_name))).
  { intros clf reg features lat lon city_name probas pred_idx pred_label r p_high
           Hp Hi Hl Hr Hh.
    unfold prediction_results.
    rewrite Hp. eapply In_bind_later; [reflexivity |]. cbv beta.
    rewrite Hi. eapply In_bind_later; [reflexivity |]. cbv beta.
    rewrite Hl. eapply In_bind_later; [reflexivity |]. cbv beta.
    rewrite Hr. eapply In_bind_later; [reflexivity |]. cbv beta zeta.
    do 2 (eapply In_bind_later; [reflexivity |]; cbv beta).
    rewrite Hh. do 2 (eapply In_bind_later; [reflexivity |]; cbv beta).
    apply In_bind_now. left. reflexivity. }
  split; [vm_compute; reflexivity |]. split; [exact G |].
  intros E run. split; [| vm_compute; reflexivity].
  assert (F : format_rupees (expm1 (Float.dec 92 1) * USD_TO_INR)%float = "₹8.21 lakh")
    by (rewrite E; vm_compute; reflexivity).
  rewrite <- F. subst run.
  apply (G scenario_clf scenario_reg (features_of default_session) _ _ _
           [Float.dec 7 1; Float.dec 2 1; Float.dec 1 1] 0 "Low"
           (Float.dec 92 1) (Float.dec 1 1)); reflexivity.
Qed.

End Damage.

Lemma estimated_damage_shown_witness :
  In (Metric "Estimated Damage" "₹8.21 lakh")
     (page_of (prediction_results scenario_expm1 scenario_barh scenario_clf scenario_reg
                 (features_of default_session)
                 (Float.dec 185204 4) (Float.dec 738567 4) "Pune")).
Proof.
  apply (proj2 (proj2 (estimated_damage_shown scenario_expm1 scenario_barh))).
  reflexivity.
Defined.


(** ** C8: currency conversion and sums

    Whole numbers below 2^53 are floats, and their sums and products are
    computed without rounding as long as they stay below 2^53. *)

Lemma digits2_log2 (p : positive) :
  Zpos (digits2_pos p) = Z.log2 (Zpos p) + 1.
Proof.
  induction p as [p IH | p IH |]; simpl digits2_pos.
  - rewrite Pos2Z.inj_succ, IH.
    change (Zpos p~1) with (2 * Zpos p + 1).
    rewrite Z.log2_succ_double by lia. lia.
  - rewrite Pos2Z.inj_succ, IH.
    change (Zpos p~0) with (2 * Zpos p).
    rewrite Z.log2_double by lia. lia.
  - reflexivity.
Qed.

Lemma iter_pos_nat {A : Type} (f : A -> A) (p : positive) (x : A) :
  SpecFloat.iter_pos f p x = Nat.iter (Pos.to_nat p) f x.
Proof.
  revert x. induction p as [p IH | p IH |]; intros x; simpl SpecFloat.iter_pos.
  - rewrite !IH, Pos2Nat.inj_xI. rewrite <- Nat.iter_succ_r.
    rewrite <- Nat.iter_add. f_equal. lia.
  - rewrite !IH, Pos2Nat.inj_xO. rewrite <- Nat.iter_add. f_equal. lia.
  - reflexivity.
Qed.

Lemma iter_xO_pow (m d : positive) :
  Zpos (Pos.iter xO m d) = Zpos m * 2 ^ Zpos d.
Proof.
  change (Pos.iter xO m d) with (shift_pos d m).
  rewrite shift_pos_correct. rewrite Z.pow_pos_fold. lia.
Qed.

Lemma shr_exact (d k : positive) :
  SpecFloat.iter_pos shr_1 d (exact_rec (Zpos (Pos.iter xO k d))) = exact_rec (Zpos k).
Proof.
  rewrite iter_pos_nat, Pos2Nat.inj_iter.
  generalize (Pos.to_nat d) as n. induction n as [| n IH].
  - reflexivity.
  - rewrite Nat.iter_succ_r. simpl nat_rect. exact IH.
Qed.

(** A mantissa that is a 53-bit number times a power of two is rounded
    to that number, exactly. *)
Lemma binary_round_aux_exact (sg : bool) (k M : positive) (n E : Z) :
  0 <= n -> Zpos M = Zpos k * 2 ^ n -> digits2_pos k = 53%positive ->
  -1074 <= E + n <= 971 ->
  binary_round_aux Float.prec Float.emax sg (Zpos M) E loc_Exact = S754_finite sg k (E + n).
Proof.
  intros Hn HM Hk HE.
  assert (DM : Zdigits2 (Zpos M) = 53 + n).
  { unfold Zdigits2. rewrite digits2_log2, HM.
    rewrite Z.log2_mul_pow2; [| lia | exact Hn].
    pose proof (digits2_log2 k) as D. rewrite Hk in D. lia. }
  unfold binary_round_aux, shr_fexp. rewrite DM.
  replace (fexp Float.prec Float.emax (53 + n + E) - E) with n
    by (unfold fexp, emin, Float.prec, Float.emax; lia).
  assert (S1 : shr (shr_record_of_loc (Zpos M) loc_Exact) E n
               = (exact_rec (Zpos k), E + n)).
  { destruct n as [| d | d]; [| | lia].
    - simpl. rewrite Z.add_0_r. f_equal. unfold exact_rec. f_equal.
      rewrite HM. simpl. lia.
    - unfold shr. f_equal. 
      assert (EM : M = Pos.iter xO k d).
      { apply Pos2Z.inj. rewrite iter_xO_pow. exact HM. }
      rewrite EM. apply (shr_exact d k). }
  rewrite S1. cbn [exact_rec shr_m loc_of_shr_record round_nearest_even].
  assert (Dk : Zdigits2 (Zpos k) = 53) by (simpl; now rewrite Hk).
  rewrite Dk.
  replace (fexp Float.prec Float.emax (53 + (E + n)) - (E + n)) with 0
    by (unfold fexp, emin, Float.prec, Float.emax; lia).
  cbn [shr shr_record_of_loc shr_m].
  replace (E + n <=? Float.emax - Float.prec)%Z with true
    by (symmetry; apply Z.leb_le; unfold Float.emax, Float.prec; lia).
  reflexivity.
Qed.

Lemma whole_log2 (m : positive) (e v : Z) :
  digits2_pos m = 53%positive -> e <= 0 -> Zpos m = v * 2 ^ (- e) ->
  0 < v /\ Z.log2 v = 52 + e.
Proof.
  intros Hm He Hv.
  assert (P : 0 < 2 ^ (- e)) by (apply Z.pow_pos_nonneg; lia).
  assert (V : 0 < v) by nia.
  split; [exact V |].
  pose proof (digits2_log2 m) as D. rewrite Hm, Hv in D.
  rewrite Z.log2_mul_pow2 in D by lia. lia.
Qed.

Lemma whole_unique (x y : float) (v : Z) : whole x v -> whole y v -> x = y.
Proof.
  intros (m & e & -> & Hm & He & Hv) (m' & e' & -> & Hm' & He' & Hv').
  destruct (whole_log2 m e v Hm ltac:(lia) Hv) as [_ L].
  destruct (whole_log2 m' e' v Hm' ltac:(lia) Hv') as [_ L'].
  assert (e = e') by lia. subst e'.
  assert (m = m') by (apply Pos2Z.inj; congruence). now subst.
Qed.

Lemma round_whole (M : positive) (E v : Z) :
  0 < v < 2 ^ 53 -> E <= Z.log2 v - 52 -> Zpos M = v * 2 ^ (- E) ->
  whole (binary_round_aux Float.prec Float.emax false (Zpos M) E loc_Exact) v.
Proof.
  intros Hv HE HM.
  assert (L : 0 <= Z.log2 v < 53).
  { split; [apply Z.log2_nonneg | apply Z.log2_lt_pow2; lia]. }
  set (e := Z.log2 v - 52) in *.
  assert (P : 0 < v * 2 ^ (- e)).
  { apply Z.mul_pos_pos; [lia | apply Z.pow_pos_nonneg; lia]. }
  destruct (v * 2 ^ (- e)) as [| k |] eqn:Ek; try lia.
  assert (Dk : digits2_pos k = 53%positive).
  { apply Pos2Z.inj. rewrite digits2_log2, <- Ek, Z.log2_mul_pow2 by lia.
    unfold e. lia. }
  assert (HM' : Zpos M = Zpos k * 2 ^ (e - E)).
  { rewrite HM, <- Ek, <- Z.mul_assoc, <- Z.pow_add_r by lia.
    do 2 f_equal. lia. }
  rewrite (binary_round_aux_exact false k M (e - E) E ltac:(lia) HM' Dk ltac:(lia)).
  replace (E + (e - E)) with e by lia.
  exists k, e. split; [reflexivity |]. split; [exact Dk |]. split; lia.
Qed.

Lemma of_Z_whole (v : Z) : 0 < v < 2 ^ 53 -> whole (Float.of_Z v) v.
Proof.
  intros Hv. destruct v as [| p |]; try lia.
  assert (L : 0 <= Z.log2 (Zpos p) < 53).
  { split; [apply Z.log2_nonneg | apply Z.log2_lt_pow2; lia]. }
  unfold Float.of_Z, binary_normalize, binary_round.
  rewrite digits2_log2.
  replace (fexp Float.prec Float.emax (Z.log2 (Zpos p) + 1 + 0)) with (Z.log2 (Zpos p) - 52)
    by (unfold fexp, emin, Float.prec, Float.emax; lia).
  unfold shl_align.
  destruct (Z.log2 (Zpos p) - 52 - 0) as [| d | d] eqn:Ed; try lia.
  - apply round_whole; [lia | lia | simpl; lia].
  - apply round_whole; [lia | lia |].
    rewrite iter_xO_pow. do 2 f_equal. lia.
Qed.

Lemma shl_align_down (m : positive) (e e' : Z) :
  e' <= e ->
  Zpos (fst (shl_align m e e')) = Zpos m * 2 ^ (e - e').
Proof.
  intros H. unfold shl_align.
  destruct (e' - e) as [| d | d] eqn:Ed; try lia; cbn [fst].
  - replace (e - e') with 0 by lia. lia.
  - rewrite iter_xO_pow. do 2 f_equal. lia.
Qed.

Lemma mul_whole (x y : float) (a c : Z) :
  whole x a -> whole y c -> a * c < 2 ^ 53 -> whole (x * y)%float (a * c).
Proof.
  intros (mx & ex & -> & Hmx & Hex & Hax) (my & ey & -> & Hmy & Hey & Hcy) Hac.
  destruct (whole_log2 mx ex a Hmx ltac:(lia) Hax) as [Pa La].
  destruct (whole_log2 my ey c Hmy ltac:(lia) Hcy) as [Pc Lc].
  unfold Float.mul, SFmul. cbn [xorb].
  apply round_whole.
  - nia.
  - assert (Z.log2 a <= Z.log2 (a * c)) by (apply Z.log2_le_mono; nia). lia.
  - rewrite Pos2Z.inj_mul, Hax, Hcy.
    replace (- (ex + ey)) with (- ex + - ey) by lia.
    rewrite Z.pow_add_r by lia. ring.
Qed.

Lemma add_whole (x y : float) (a b : Z) :
  whole x a -> whole y b -> a + b < 2 ^ 53 -> whole (x + y)%float (a + b).
Proof.
  intros (mx & ex & -> & Hmx & Hex & Hax) (my & ey & -> & Hmy & Hey & Hby) Hab.
  destruct (whole_log2 mx ex a Hmx ltac:(lia) Hax) as [Pa La].
  destruct (whole_log2 my ey b Hmy ltac:(lia) Hby) as [Pb Lb].
  unfold Float.add, SFadd. cbn [cond_Zopp].
  set (ez := Z.min ex ey).
  assert (A : Zpos (fst (shl_align mx ex ez)) = a * 2 ^ (- ez)).
  { rewrite shl_align_down by lia. rewrite Hax, <- Z.mul_assoc, <- Z.pow_add_r by lia.
    do 2 f_equal. lia. }
  assert (B : Zpos (fst (shl_align my ey ez)) = b * 2 ^ (- ez)).
  { rewrite shl_align_down by lia. rewrite Hby, <- Z.mul_assoc, <- Z.pow_add_r by lia.
    do 2 f_equal. lia. }
  rewrite A, B, <- Z.mul_add_distr_r.
  assert (P : 0 < 2 ^ (- ez)) by (apply Z.pow_pos_nonneg; lia).
  assert (PS : 0 < (a + b) * 2 ^ (- ez)) by nia.
  destruct ((a + b) * 2 ^ (- ez)) as [| S |] eqn:ES; try lia.
  assert (L : Z.log2 a <= Z.log2 (a + b) /\ Z.log2 b <= Z.log2 (a + b))
    by (split; apply Z.log2_le_mono; lia).
  assert (L53 : Z.log2 (a + b) < 53) by (apply Z.log2_lt_pow2; lia).
  unfold binary_normalize, binary_round.
  rewrite digits2_log2, <- ES, Z.log2_mul_pow2 by lia.
  replace (fexp Float.prec Float.emax (- ez + Z.log2 (a + b) + 1 + ez)) with (Z.log2 (a + b) - 52)
    by (unfold fexp, emin, Float.prec, Float.emax; lia).
  unfold shl_align.
  destruct (Z.log2 (a + b) - 52 - ez) as [| d | d] eqn:Ed; try lia;
    (apply round_whole; [lia | lia | now rewrite ES]).
Qed.

Lemma convert_whole (x : float) (a : Z) :
  whole x a -> 83 * a < 2 ^ 53 -> whole (convert_usd_to_inr x) (a * 83).
Proof.
  intros Hx Ha. unfold convert_usd_to_inr.
  replace USD_TO_INR with (Float.of_Z 83) by (vm_compute; reflexivity).
  apply mul_whole; [exact Hx | apply of_Z_whole; lia | lia].
Qed.

Lemma convert_additive_pos (a b : Z) :
  0 < a -> 0 < b -> 83 * (a + b) < 2 ^ 53 ->
  convert_usd_to_inr (Float.of_Z a + Float.of_Z b)%float
  = (convert_usd_to_inr (Float.of_Z a) + convert_usd_to_inr (Float.of_Z b))%float.
Proof.
  intros Ha Hb Hab.
  apply (whole_unique _ _ ((a + b) * 83)).
  - apply convert_whole; [| lia].
    apply add_whole; [apply of_Z_whole; lia | apply of_Z_whole; lia | lia].
  - replace ((a + b) * 83) with (a * 83 + b * 83) by ring.
    apply add_whole; [| | lia]; apply convert_whole; try lia; apply of_Z_whole; lia.
Qed.

Lemma convert_additive_nonneg (a b : Z) :
  0 <= a -> 0 <= b -> 83 * (a + b) < 2 ^ 53 ->
  convert_usd_to_inr (Float.of_Z a + Float.of_Z b)%float
  = (convert_usd_to_inr (Float.of_Z a) + convert_usd_to_inr (Float.of_Z b))%float.
Proof.
  intros Ha Hb Hab.
  assert (Z0 : convert_usd_to_inr (Float.of_Z 0) = S754_zero false) by (vm_compute; reflexivity).
  assert (F : forall v, 0 < v -> 83 * v < 2 ^ 53 ->
              (exists m e, Float.of_Z v = S754_finite false m e)
              /\ exists m e, convert_usd_to_inr (Float.of_Z v) = S754_finite false m e).
  { intros v Hv Hv'. split.
    - destruct (of_Z_whole v ltac:(lia)) as (m & e & E & _). eauto.
    - destruct (convert_whole (Float.of_Z v) v (of_Z_whole v ltac:(lia)) Hv')
        as (m & e & E & _). eauto. }
  destruct (Z.eq_dec a 0) as [-> | Na]; destruct (Z.eq_dec b 0) as [-> | Nb].
  - vm_compute. reflexivity.
  - destruct (F b ltac:(lia) ltac:(lia)) as [(m & e & E) (m' & e' & E')].
    assert (A0 : Float.add (Float.of_Z 0) (Float.of_Z b) = Float.of_Z b) by (rewrite E; reflexivity).
    rewrite A0, Z0, E'. reflexivity.
  - destruct (F a ltac:(lia) ltac:(lia)) as [(m & e & E) (m' & e' & E')].
    assert (A0 : Float.add (Float.of_Z a) (Float.of_Z 0) = Float.of_Z a) by (rewrite E; reflexivity).
    rewrite A0, Z0, E'. reflexivity.
  - apply convert_additive_pos; lia.
Qed.

Lemma whole_exact_value (x : float) (v : Z) :
  whole x v -> exists n d, exact_value x = Some (n, d) /\ n = v * Zpos d.
Proof.
  intros (m & e & -> & _ & He & Hv). unfold exact_value.
  destruct e as [| k | k]; try lia.
  - exists (Zpos m * 2 ^ 0), 1%positive. split; [reflexivity |].
    rewrite Hv. simpl. lia.
  - exists (Zpos m), (2 ^ k)%positive. split; [reflexivity |].
    rewrite Hv, Pos2Z.inj_pow. reflexivity.
Qed.

(** C8 fails as stated: with a = 0.1 and b = 1.0 the two sides are the
    neighbouring floats 91.30000000000001 and 91.3. *)
Lemma conversion_not_additive :
  convert_usd_to_inr (Float.dec 1 1 + Float.dec 10 1)%float
  = S754_finite false 6424666343420724 (-46)
  /\ (convert_usd_to_inr (Float.dec 1 1) + convert_usd_to_inr (Float.dec 10 1))%float
     = S754_finite false 6424666343420723 (-46)
  /\ convert_usd_to_inr (Float.dec 1 1 + Float.dec 10 1)%float
     <> (convert_usd_to_inr (Float.dec 1 1) + convert_usd_to_inr (Float.dec 10 1))%float.
Proof.
  split; [vm_compute; reflexivity |]. split; [vm_compute; reflexivity |].
  vm_compute. discriminate.
Qed.

(** C8, amended: the conversion is one binary64 multiplication by 83.0,
    so each side of the identity is rounded on its own.  On whole amounts
    a, b >= 0 with 83 * (a + b) < 2^53 nothing is rounded: the converted
    amount is exactly 83 times the amount, and the conversion of the sum
    is the sum of the conversions. *)
Theorem conversion_additive_on_whole_amounts :
  (forall x : float, convert_usd_to_inr x = (x * Float.of_Z 83)%float)
  /\ (forall a : Z, 0 < a -> 83 * a < 2 ^ 53 ->
      exists n d, exact_value (convert_usd_to_inr (Float.of_Z a)) = Some (n, d)
                  /\ n = a * 83 * Zpos d)
  /\ (forall a b : Z, 0 <= a -> 0 <= b -> 83 * (a + b) < 2 ^ 53 ->
      convert_usd_to_inr (Float.of_Z a + Float.of_Z b)%float
      = (convert_usd_to_inr (Float.of_Z a) + convert_usd_to_inr (Float.of_Z b))%float).
Proof.
  split; [| split].
  - intros x. unfold convert_usd_to_inr.
    replace USD_TO_INR with (Float.of_Z 83) by (vm_compute; reflexivity).
    reflexivity.
  - intros a Ha Ha'. apply whole_exact_value, convert_whole; [| lia].
    apply of_Z_whole. lia.
  - exact convert_additive_nonneg.
Qed.

Lemma conversion_additive_on_whole_amounts_witness :
  convert_usd_to_inr (Float.of_Z 100 + Float.of_Z 250)%float
  = (convert_usd_to_inr (Float.of_Z 100) + convert_usd_to_inr (Float.of_Z 250))%float.
Proof.
  apply (proj2 (proj2 conversion_additive_on_whole_amounts) 100 250); lia.
Defined.

(** ** Every run shows the reference content *)

Lemma shows_reference_bind {A : Type} (m : M A) (k : A -> M unit) (a : A) :
  outcome m = Ok a -> shows_reference (k a) -> shows_reference (bind m k).
Proof.
  intros Hm (Hk & before & after & Hp). split.
  - now rewrite (outcome_bind m k a Hm).
  - exists (page_of m ++ before)%list, after.
    rewrite (page_of_bind m k a Hm), Hp. now rewrite app_assoc.
Qed.

Section EveryRun.

Variable expm1 : float -> float.
Variable pyplot_barh : float -> result unit.
Variable s : session.

(** The prediction block of [main] cannot raise: its handler catches
    every exception and only writes to the page. *)
Lemma prediction_block_ends (pressed : bool) (body : M unit) :
  outcome (if pressed
           then st Spinner "Analyzing flood risk..." ;;
                try_except body
                  (fun e =>
                     st Error ("Prediction error: " ++ str e) ;;
                     st Info "Please check all input values and try again.")
           else ret tt) = Ok tt.
Proof.
  destruct pressed; [| reflexivity].
  rewrite (outcome_bind (st Spinner "Analyzing flood risk...") _ tt eq_refl).
  apply outcome_try_except. intros e. reflexivity.
Qed.

Lemma main_shows_reference
    (joblib_load_clf : result classifier) (joblib_load_reg : result regressor) :
  shows_reference (main expm1 pyplot_barh joblib_load_clf joblib_load_reg s).
Proof.
  destruct joblib_load_clf as [clf | e].
  2:{ rewrite (main_after_load_failure expm1 pyplot_barh (Raise e) joblib_load_reg s e
                 (or_introl eq_refl)).
      split; [reflexivity |].
      exists (load_failure_report e ++ [Text Info installation_instructions])%list, [].
      cbn [page_of fst]. now rewrite app_nil_r, <- app_assoc. }
  destruct joblib_load_reg as [reg | e].
  2:{ rewrite (main_after_load_failure expm1 pyplot_barh (Ok clf) (Raise e) s e
                 (or_intror (ex_intro _ clf (conj eq_refl eq_refl)))).
      split; [reflexivity |].
      exists (load_failure_report e ++ [Text Info installation_instructions])%list, [].
      cbn [page_of fst]. now rewrite app_nil_r, <- app_assoc. }
  unfold main.
  do 13 (eapply shows_reference_bind; [reflexivity | cbv beta iota]).
  eapply shows_reference_bind; [apply prediction_block_ends | cbv beta].
  split; [reflexivity |].
  exists [], [Sidebar (Text Markdown "---"); Sidebar (Text Info how_to_use)].
  reflexivity.
Qed.

(** X1: whatever [joblib.load] gives, whatever the widgets hold and
    whatever the pipelines do, [main] and the whole script end normally
    and the seven reference sections are on the page. *)
Theorem reference_content_always_shown
    (joblib_load_clf : result classifier) (joblib_load_reg : result regressor) :
  shows_reference (main expm1 pyplot_barh joblib_load_clf joblib_load_reg s)
  /\ shows_reference (script expm1 pyplot_barh joblib_load_clf joblib_load_reg s).
Proof.
  split; [apply main_shows_reference |].
  unfold script.
  do 3 (eapply shows_reference_bind; [reflexivity | cbv beta]).
  apply main_shows_reference.
Qed.

End EveryRun.


(** ** A failed prediction *)

Section PredictionFailure.

Variable expm1 : float -> float.
Variable pyplot_barh : float -> result unit.
Variable s : session.

(** X2: when the classifier raises on a pressed button, the exception
    is caught: the page shows the prediction error with its text and the
    advice to try again, and [main] ends normally. *)
Theorem prediction_error_is_reported
    (clf : classifier) (reg : regressor) (e : exception) :
  clicked s "🚀 Predict Flood Risk" = true ->
  clf_predict_proba clf (DataFrame (features_of s) NUM_FEATURES) = Raise e ->
  let run := main expm1 pyplot_barh (Ok clf) (Ok reg) s in
  outcome run = Ok tt
  /\ In (Text Error ("Prediction error: " ++ str e)) (page_of run)
  /\ In (Text Info "Please check all input values and try again.") (page_of run).
Proof.
  intros Hb Hp run.
  split; [apply (main_shows_reference expm1 pyplot_barh s (Ok clf) (Ok reg)) |].
  assert (P : prediction_results expm1 pyplot_barh clf reg (features_of s)
                (numbers s w_lat) (numbers s w_lon)
                (texts s "Location Name:") = ([], Raise e)).
  { unfold prediction_results. rewrite Hp. reflexivity. }
  assert (G : forall x,
             In x [Text Error ("Prediction error: " ++ str e);
                   Text Info "Please check all input values and try again."] ->
             In x (page_of run)).
  { intros x Hx. subst run. unfold main.
    do 13 (eapply In_bind_later; [reflexivity | cbv beta iota]).
    apply In_bind_now. rewrite Hb.
    eapply In_bind_later; [reflexivity | cbv beta].
    match goal with
    | |- In _ (page_of (try_except ?b _)) =>
        change b with
          (prediction_results expm1 pyplot_barh clf reg (features_of s)
             (numbers s w_lat) (numbers s w_lon)
             (texts s "Location Name:"))
    end.
    rewrite P. exact Hx. }
  split; apply G; simpl; auto.
Qed.

End PredictionFailure.

Lemma prediction_error_is_reported_witness :
  In (Text Error "Prediction error: Input contains NaN.")
     (page_of (main scenario_expm1 scenario_barh (Ok failing_clf) (Ok scenario_reg) default_session)).
Proof.
  apply (prediction_error_is_reported scenario_expm1 scenario_barh default_session failing_clf
           scenario_reg (PyExc "ValueError" "Input contains NaN.") eq_refl eq_refl).
Defined.

(** ** What reaches the pipelines *)

Lemma bind_same_head {A B : Type} (m : M A) (k k' : A -> M B) (a : A) :
  outcome m = Ok a -> k a = k' a -> bind m k = bind m k'.
Proof.
  destruct m as [page r]. simpl. intros -> H. unfold bind. now rewrite H.
Qed.

Lemma bind_heads {A A' B : Type} (m : M A) (m' : M A') (k : A -> M B) (k' : A' -> M B)
    (a : A) (a' : A') :
  page_of m = page_of m' -> outcome m = Ok a -> outcome m' = Ok a' ->
  k a = k' a' -> bind m k = bind m' k'.
Proof.
  destruct m as [page r], m' as [page' r']. simpl.
  intros -> -> -> H. unfold bind. now rewrite H.
Qed.

Lemma prediction_results_frame (expm1 : float -> float) (pyplot_barh : float -> result unit)
    (clf clf' : classifier) (reg reg' : regressor)
    (features : list (string * float)) (lat lon : float) (city_name : string) :
  clf_predict_proba clf (DataFrame features NUM_FEATURES)
  = clf_predict_proba clf' (DataFrame features NUM_FEATURES) ->
  clf_predict clf (DataFrame features NUM_FEATURES)
  = clf_predict clf' (DataFrame features NUM_FEATURES) ->
  reg_predict reg (DataFrame features NUM_FEATURES)
  = reg_predict reg' (DataFrame features NUM_FEATURES) ->
  prediction_results expm1 pyplot_barh clf reg features lat lon city_name
  = prediction_results expm1 pyplot_barh clf' reg' features lat lon city_name.
Proof.
  intros Hp Hi Hr. unfold prediction_results. cbv zeta.
  rewrite Hp, Hi, Hr. reflexivity.
Qed.

(** X4: the two pipelines are asked about one row only, the eight widget
    values in the order of NUM_FEATURES; latitude, longitude and the
    location name are not part of it.  Pipelines that answer alike on
    that row give the same page, and without a click they are not asked
    at all. *)
Theorem pipelines_asked_on_form_row (expm1 : float -> float) (pyplot_barh : float -> result unit) (s : session)
    (clf clf' : classifier) (reg reg' : regressor) :
  let X := map (fun '(_, w) => numbers s w) feature_widgets in
  (clicked s "🚀 Predict Flood Risk" = true ->
   clf_predict_proba clf X = clf_predict_proba clf' X
   /\ clf_predict clf X = clf_predict clf' X
   /\ reg_predict reg X = reg_predict reg' X) ->
  main expm1 pyplot_barh (Ok clf) (Ok reg) s = main expm1 pyplot_barh (Ok clf') (Ok reg') s.
Proof.
  intros X H. unfold main.
  eapply bind_heads; [reflexivity | reflexivity | reflexivity | cbv beta iota].
  do 12 (eapply bind_same_head; [reflexivity | cbv beta iota]).
  f_equal.
  destruct (clicked s "🚀 Predict Flood Risk") eqn:Hb; [| reflexivity].
  destruct (H eq_refl) as (Hp & Hi & Hr).
  pose proof (prediction_results_frame expm1 pyplot_barh clf clf' reg reg' (features_of s)
                (numbers s w_lat) (numbers s w_lon)
                (texts s "Location Name:") Hp Hi Hr) as E.
  exact (f_equal
           (fun pr =>
              st Spinner "Analyzing flood risk..." ;;
              try_except pr
                (fun e =>
                   st Error ("Prediction error: " ++ str e) ;;
                   st Info "Please check all input values and try again."))
           E).
Qed.

Lemma pipelines_asked_on_form_row_witness :
  main scenario_expm1 scenario_barh (Ok scenario_clf) (Ok scenario_reg) default_session
  = main scenario_expm1 scenario_barh (Ok eight_column_clf) (Ok scenario_reg) default_session.
Proof.
  apply (pipelines_asked_on_form_row scenario_expm1 scenario_barh default_session
           scenario_clf eight_column_clf scenario_reg scenario_reg).
  intros _. repeat split; reflexivity.
Defined.


(** ** When a prediction is shown *)

Section Prediction.

Variable expm1 : float -> float.
Variable pyplot_barh : float -> result unit.
Variables (clf : classifier) (reg : regressor).
Variable features : list (string * float).
Variables (lat lon : float) (city_name : string).

Let X := DataFrame features NUM_FEATURES.
Let run := prediction_results expm1 pyplot_barh clf reg features lat lon city_name.

(** X5: the body of the [try] runs to its end exactly when both
    pipelines answer, the class index is 0, 1 or 2, there are exactly
    three probabilities, matplotlib lays out the damage bar and neither
    coordinate is NaN; in every other case it raises. *)
Theorem prediction_succeeds_iff :
  outcome run = Ok tt <->
  exists p0 p1 p2 idx r,
    clf_predict_proba clf X = Ok [p0; p1; p2] /\ clf_predict clf X = Ok idx
    /\ 0 <= idx <= 2 /\ reg_predict reg X = Ok r
    /\ pyplot_barh (convert_usd_to_inr (expm1 r)) = Ok tt
    /\ is_nan lat = false /\ is_nan lon = false.
Proof.
  subst run. unfold prediction_results. fold X. split.
  - destruct (clf_predict_proba clf X) as [probas | e]; [| discriminate].
    rewrite bind_lift_ok.
    destruct (clf_predict clf X) as [idx | e]; [| discriminate].
    rewrite bind_lift_ok.
    destruct (getitem_int RISK_LABELS idx) as [label | e] eqn:Hl; [| discriminate].
    rewrite bind_lift_ok.
    destruct (reg_predict reg X) as [r | e]; [| discriminate].
    rewrite bind_lift_ok. cbv zeta.
    intros H.
    destruct probas as [| p0 [| p1 [| p2 [| p3 rest]]]];
      [run_raises_in H | run_raises_in H | run_raises_in H | |].
    + change (array_item [p0; p1; p2] 2) with (@Ok float p2) in H.
      rewrite !bind_lift_ok in H.
      unfold plot_damage_estimate in H.
      destruct (pyplot_barh (convert_usd_to_inr (expm1 r))) as [[] | e] eqn:Hbar;
        [| run_raises_in H].
      destruct (is_nan lat) eqn:Hlat.
      { rewrite (create_interactive_map_nan lat lon) in H by (now left).
        run_raises_in H. }
      destruct (is_nan lon) eqn:Hlon.
      { rewrite (create_interactive_map_nan lat lon) in H by (now right).
        run_raises_in H. }
      exists p0, p1, p2, idx, r. repeat split; try reflexivity; try assumption;
        apply RISK_LABELS_range in Hl; lia.
    + exfalso. apply RISK_LABELS_range in Hl.
      destruct Hl as [[-> ->] | [[-> ->] | [-> ->]]]; run_raises_in H.
  - intros (p0 & p1 & p2 & idx & r & -> & -> & Hidx & -> & Hbar & Hlat & Hlon).
    rewrite !bind_lift_ok.
    assert (Hl : idx = 0 \/ idx = 1 \/ idx = 2) by lia.
    destruct Hl as [-> | [-> | ->]];
      [ change (getitem_int RISK_LABELS 0) with (@Ok string "Low")
      | change (getitem_int RISK_LABELS 1) with (@Ok string "Medium")
      | change (getitem_int RISK_LABELS 2) with (@Ok string "High") ];
      rewrite !bind_lift_ok; cbv zeta;
      change (array_item [p0; p1; p2] 2) with (@Ok float p2);
      rewrite !bind_lift_ok;
      unfold plot_damage_estimate; rewrite Hbar;
      unfold create_interactive_map, validate_location; rewrite Hlat, Hlon;
      repeat run_step; reflexivity.
Qed.

(** What a prediction shows in full. *)
Lemma successful_page (p0 p1 p2 : float) (idx : Z) (label : string) (r : float) :
  clf_predict_proba clf X = Ok [p0; p1; p2] -> clf_predict clf X = Ok idx ->
  getitem_int RISK_LABELS idx = Ok label -> reg_predict reg X = Ok r ->
  pyplot_barh (convert_usd_to_inr (expm1 r)) = Ok tt ->
  is_nan lat = false -> is_nan lon = false ->
  exists fig damage_fig m,
    plot_risk_probabilities [p0; p1; p2] = Ok fig
    /\ plot_damage_estimate pyplot_barh (convert_usd_to_inr (expm1 r)) = Ok damage_fig
    /\ create_interactive_map lat lon label p2 (convert_usd_to_inr (expm1 r)) city_name
       = Ok m
    /\ run =
       ([ Text Header "📊 Prediction Results";
          Metric "Risk Level" label;
          Metric "High Risk Probability" (PyFormat.format_pct 1 p2);
          Metric "Estimated Damage" (format_rupees (convert_usd_to_inr (expm1 r)));
          Metric "Model Confidence" (PyFormat.format_pct 1 (Float.max_from p0 [p1; p2]));
          Text Info ("📍 **Analysis for:** " ++ city_name ++ " at "
                     ++ PyFormat.format_f false 6 lat ++ ", "
                     ++ PyFormat.format_f false 6 lon);
          Text Subheader "🚨 Risk Assessment" ]
        ++ page_of (risk_assessment label p2)
        ++ [ Text Subheader "📈 Risk Analysis";
             Pyplot fig;
             Pyplot damage_fig;
             Text Subheader "🗺️ Location Map - Full Screen View";
             Text Info map_features;
             FoliumStatic m 1200 600 ], Ok tt)%list.
Proof.
  intros Hp Hi Hl Hr Hbar Hlat Hlon. subst run. unfold prediction_results. fold X.
  rewrite Hp, bind_lift_ok, Hi, bind_lift_ok, Hl, bind_lift_ok, Hr, bind_lift_ok.
  cbv zeta. unfold plot_damage_estimate. rewrite Hbar.
  unfold create_interactive_map, validate_location. rewrite Hlat, Hlon.
  pose proof (outcome_risk_assessment label p2) as Ha.
  apply RISK_LABELS_range in Hl.
  destruct Hl as [[-> ->] | [[-> ->] | [-> ->]]];
    (eexists; eexists; eexists; split; [reflexivity |]; split; [reflexivity |];
     split; [reflexivity |]);
    match goal with
    | Ha : outcome (risk_assessment ?l ?p) = Ok tt |- _ =>
        change (array_item [p0; p1; p2] 2) with (@Ok float p2);
        cbv beta iota delta [bind lift emit st ret];
        destruct (risk_assessment l p) as [pa ra]; cbn [outcome snd] in Ha;
        subst ra; reflexivity
    end.
Qed.

End Prediction.

Lemma prediction_succeeds_iff_witness :
  outcome (prediction_results scenario_expm1 scenario_barh scenario_clf scenario_reg
             (features_of default_session) (Float.dec 185204 4) (Float.dec 738567 4)
             "Pune")
  = Ok tt
  /\ outcome (prediction_results scenario_expm1 scenario_barh two_class_clf scenario_reg
                (features_of default_session) (Float.dec 185204 4)
                (Float.dec 738567 4) "Pune")
     <> Ok tt.
Proof.
  split.
  - apply (proj2 (prediction_succeeds_iff scenario_expm1 scenario_barh scenario_clf
                    scenario_reg (features_of default_session) (Float.dec 185204 4)
                    (Float.dec 738567 4) "Pune")).
    exists (Float.dec 7 1), (Float.dec 2 1), (Float.dec 1 1), 0, (Float.dec 92 1).
    repeat split; try reflexivity; lia.
  - intros H.
    apply (proj1 (prediction_succeeds_iff scenario_expm1 scenario_barh two_class_clf
                    scenario_reg (features_of default_session) (Float.dec 185204 4)
                    (Float.dec 738567 4) "Pune")) in H.
    destruct H as (p0 & p1 & p2 & idx & r & H & _). discriminate H.
Defined.

(** ** The largest probability *)

Lemma leb_refl (x : float) : is_nan x = false -> (x <=? x)%float = true.
Proof.
  unfold Float.leb, SFleb, SFcompare.
  destruct x as [sx | sx | | sx mx ex]; try destruct sx; try discriminate;
    try reflexivity; intros _; rewrite Z.compare_refl;
    change (Pos.compare_cont Eq mx mx) with (Pos.compare mx mx);
    now rewrite Pos.compare_refl.
Qed.

Lemma leb_trans (x y z : float) :
  (x <=? y)%float = true -> (y <=? z)%float = true -> (x <=? z)%float = true.
Proof.
  unfold Float.leb, SFleb, SFcompare.
  destruct x as [sx | sx | | sx mx ex], y as [sy | sy | | sy my ey],
           z as [sz | sz | | sz mz ez];
    try destruct sx; try destruct sy; try destruct sz;
    try discriminate; try reflexivity;
    split_compare; simpl; intros; subst; try discriminate; try reflexivity; lia.
Qed.

Lemma gtb_leb (x y : float) : (x >? y)%float = true -> (y <=? x)%float = true.
Proof.
  unfold Float.gtb, Float.leb, SFltb, SFleb.
  now destruct (SFcompare y x) as [[| |] |].
Qed.

Lemma not_gtb_leb (x y : float) :
  is_nan x = false -> is_nan y = false ->
  (x >? y)%float = false -> (x <=? y)%float = true.
Proof.
  unfold Float.gtb, Float.leb, SFltb, SFleb, SFcompare.
  destruct x as [sx | sx | | sx mx ex], y as [sy | sy | | sy my ey];
    try destruct sx; try destruct sy;
    try discriminate; try reflexivity; intros _ _;
    split_compare; simpl; intros; subst; try discriminate; try reflexivity; lia.
Qed.

Lemma max_from_In (x : float) (xs : list float) :
  In (Float.max_from x xs) (x :: xs).
Proof.
  unfold Float.max_from. revert x. induction xs as [| y xs IH]; intros x.
  - now left.
  - cbn [fold_left].
    destruct (IH (if (y >? x)%float then y else x)) as [E | HIn].
    + rewrite <- E. destruct (y >? x)%float; simpl; auto.
    + right. right. exact HIn.
Qed.

Lemma max_from_upper (x : float) (xs : list float) :
  forallb (fun y => negb (is_nan y)) (x :: xs) = true ->
  forall y, In y (x :: xs) -> (y <=? Float.max_from x xs)%float = true.
Proof.
  unfold Float.max_from. revert x.
  induction xs as [| z xs IH]; intros x Hn y Hy.
  - destruct Hy as [<- | []]. cbn [forallb] in Hn.
    rewrite andb_true_r in Hn. apply negb_true_iff in Hn. now apply leb_refl.
  - cbn [fold_left]. cbn [forallb] in Hn.
    apply andb_prop in Hn as [Hx Hn]. apply andb_prop in Hn as [Hz Hn].
    apply negb_true_iff in Hx. apply negb_true_iff in Hz.
    set (b := if (z >? x)%float then z else x).
    assert (Hb : is_nan b = false) by (subst b; now destruct (z >? x)%float).
    assert (Hxb : (x <=? b)%float = true).
    { subst b. destruct (z >? x)%float eqn:G;
        [now apply gtb_leb | now apply leb_refl]. }
    assert (Hzb : (z <=? b)%float = true).
    { subst b. destruct (z >? x)%float eqn:G;
        [now apply leb_refl | now apply not_gtb_leb]. }
    assert (Hn' : forallb (fun y => negb (is_nan y)) (b :: xs) = true).
    { cbn [forallb]. now rewrite Hb, Hn. }
    destruct Hy as [<- | [<- | Hy]].
    + eapply leb_trans; [exact Hxb | apply (IH b Hn'); now left].
    + eapply leb_trans; [exact Hzb | apply (IH b Hn'); now left].
    + apply (IH b Hn'). now right.
Qed.

(** ** The page around the prediction *)

(** The coordinates a session gives are numbers. *)
Lemma session_coordinates (s : session) :
  is_nan (numbers s w_lat) = false /\ is_nan (numbers s w_lon) = false.
Proof.
  pose proof (numbers_within s w_lat eq_refl) as Hlat.
  pose proof (numbers_within s w_lon eq_refl) as Hlon.
  unfold within in Hlat, Hlon. cbn [ns_min ns_max w_lat w_lon] in Hlat, Hlon.
  rewrite !andb_true_r in Hlat, Hlon.
  split; [destruct (numbers s w_lat) | destruct (numbers s w_lon)];
    try reflexivity; discriminate.
Qed.

(** One statement further in the run on whose page [H] finds an element
    that the statement at the head does not write. *)
Ltac page_step H :=
  apply In_bind_inv in H as [H | (? & ? & H)];
  [ first [ destruct H as [H | []]; discriminate H
          | destruct H ]
  | ].

Section Results.

Variable expm1 : float -> float.
Variable pyplot_barh : float -> result unit.
Variables (clf : classifier) (reg : regressor).
Variable features : list (string * float).
Variables (lat lon : float) (city_name : string).

Let X := DataFrame features NUM_FEATURES.
Let results := prediction_results expm1 pyplot_barh clf reg features lat lon city_name.

(** A map on the page of the results was drawn for the label of the
    predicted class. *)
Lemma map_on_results_page (m : folium_map) (width height : Z) :
  In (FoliumStatic m width height) (page_of results) ->
  exists idx label p_high r,
    clf_predict clf X = Ok idx /\ getitem_int RISK_LABELS idx = Ok label
    /\ create_interactive_map lat lon label p_high (convert_usd_to_inr (expm1 r))
         city_name = Ok m.
Proof.
  subst results. unfold prediction_results. fold X. cbv zeta. intros H.
  do 13 page_step H.
  apply In_bind_inv in H as [H | ([] & E & H)].
  { unfold risk_assessment in H.
    match type of H with
    | context [alert_tier ?l ?p] => destruct (alert_tier l p)
    end; destruct H as [H | []]; discriminate H. }
  do 8 page_step H.
  destruct H as [H | []]. injection H as <- _ _.
  cbn [outcome lift snd] in *. eauto 10.
Qed.

(** The one alert of the results, whatever comes after it. *)
Lemma alert_on_results_page (probas : list float) (idx : Z) (label : string)
    (p_high r : float) :
  clf_predict_proba clf X = Ok probas -> array_item probas 2 = Ok p_high ->
  clf_predict clf X = Ok idx -> getitem_int RISK_LABELS idx = Ok label ->
  reg_predict reg X = Ok r ->
  filter is_alert (page_of results) = [alert_box (alert_tier label p_high)]
  /\ In (Metric "Risk Level" label) (page_of results).
Proof.
  intros Hp Ha Hi Hl Hr. subst results. unfold prediction_results. fold X.
  rewrite Hp, bind_lift_ok, Hi, bind_lift_ok, Hl, bind_lift_ok, Hr, bind_lift_ok.
  cbv zeta. rewrite Ha, bind_lift_ok.
  destruct probas as [| p0 rest]; [discriminate Ha |].
  rewrite bind_lift_ok. unfold plot_damage_estimate, risk_assessment.
  destruct (plot_risk_probabilities (p0 :: rest)) as [fig | e1];
    destruct (pyplot_barh (convert_usd_to_inr (expm1 r))) as [[] | e2];
    destruct (create_interactive_map lat lon label p_high
                (convert_usd_to_inr (expm1 r)) city_name) as [m | e3];
    destruct (alert_tier label p_high);
    (split; [reflexivity | right; left; reflexivity]).
Qed.

End Results.

Section Click.

Variable expm1 : float -> float.
Variable pyplot_barh : float -> result unit.
Variable s : session.
Variables (clf : classifier) (reg : regressor).

Let run := main expm1 pyplot_barh (Ok clf) (Ok reg) s.
Let results :=
  prediction_results expm1 pyplot_barh clf reg (features_of s)
    (numbers s w_lat) (numbers s w_lon) (texts s "Location Name:").

Lemma main_page_clicked :
  clicked s "🚀 Predict Flood Risk" = true ->
  exists before after,
    page_of run
    = (before ++ page_of (try_except results prediction_handler) ++ after)%list
    /\ filter is_result before = [] /\ filter is_result after = []
    /\ filter is_alert before = [] /\ filter is_alert after = [].
Proof.
  intros Hb. subst run. unfold main.
  do 13 (erewrite page_of_bind by reflexivity; cbv beta iota).
  erewrite page_of_bind by apply prediction_block_ends.
  rewrite Hb.
  erewrite (page_of_bind (st Spinner "Analyzing flood risk...")) by reflexivity.
  rewrite !app_assoc.
  eexists. eexists. split.
  - rewrite app_assoc. reflexivity.
  - repeat split; reflexivity.
Qed.

Lemma main_page_not_clicked :
  clicked s "🚀 Predict Flood Risk" = false ->
  filter is_result (page_of run) = [] /\ filter is_alert (page_of run) = [].
Proof.
  intros Hb. subst run. unfold main.
  do 13 (erewrite page_of_bind by reflexivity; cbv beta iota).
  erewrite page_of_bind by apply prediction_block_ends.
  rewrite Hb. repeat split; reflexivity.
Qed.

Lemma results_of_main (f : element -> bool) (before after : list element) :
  page_of run
  = (before ++ page_of (try_except results prediction_handler) ++ after)%list ->
  filter f before = [] -> filter f after = [] ->
  (forall e, filter f (page_of (prediction_handler e)) = []) ->
  filter f (page_of run) = filter f (page_of results).
Proof.
  intros -> Hb Ha Hh. rewrite !filter_app, Hb, Ha, app_nil_r. cbn [app].
  unfold try_except. destruct results as [page [[] | e]]; [reflexivity |].
  specialize (Hh e). destruct (prediction_handler e) as [page' r].
  cbn [page_of fst] in *. now rewrite filter_app, Hh, app_nil_r.
Qed.

Lemma results_shown :
  clicked s "🚀 Predict Flood Risk" = true ->
  filter is_result (page_of run) = filter is_result (page_of results).
Proof.
  intros Hb. destruct (main_page_clicked Hb) as (before & after & E & B & A & _).
  now apply (results_of_main is_result before after).
Qed.

Lemma alerts_shown :
  clicked s "🚀 Predict Flood Risk" = true ->
  filter is_alert (page_of run) = filter is_alert (page_of results).
Proof.
  intros Hb. destruct (main_page_clicked Hb) as (before & after & E & _ & _ & B & A).
  now apply (results_of_main is_alert before after).
Qed.

Lemma handled_on_page (x : element) :
  clicked s "🚀 Predict Flood Risk" = true ->
  In x (page_of (try_except results prediction_handler)) -> In x (page_of run).
Proof.
  intros Hb Hx. destruct (main_page_clicked Hb) as (before & after & E & _).
  rewrite E. apply in_or_app. right. apply in_or_app. now left.
Qed.

Let X := DataFrame (features_of s) NUM_FEATURES.

(** What the results wrote stays on the page, whether they ended or
    raised. *)
Lemma written_stays (x : element) :
  clicked s "🚀 Predict Flood Risk" = true ->
  In x (page_of results) -> In x (page_of run).
Proof.
  intros Hb Hx. apply (handled_on_page _ Hb). unfold try_except.
  destruct results as [page [[] | e]]; [exact Hx |].
  destruct (prediction_handler e) as [page' r']. cbn [page_of fst] in *.
  apply in_or_app. now left.
Qed.

(** A metric, chart or result map is on the page only after a click, and
    the results wrote it. *)
Lemma result_from_results (x : element) :
  is_result x = true -> In x (page_of run) ->
  clicked s "🚀 Predict Flood Risk" = true /\ In x (page_of results).
Proof.
  intros Hr Hx.
  assert (Hf : In x (filter is_result (page_of run))) by (apply filter_In; auto).
  destruct (clicked s "🚀 Predict Flood Risk") eqn:Hb.
  - split; [reflexivity |]. rewrite (results_shown Hb) in Hf.
    now apply filter_In in Hf.
  - rewrite (proj1 (main_page_not_clicked Hb)) in Hf. destruct Hf.
Qed.

(** C1: on the page of a prediction the one alert is the one of the
    tier selected, from the label of the predicted class and from
    [probas[2]], by the precedence High (class High or P(High) > 0.6),
    then Medium (class Medium or P(High) > 0.3), then Low: the critical
    alert, the warning or the all-clear.  The alert is written before the
    charts and the map, so it is there whatever happens to them.  (The
    Risk Level metric beside it shows the class label itself.) *)
Theorem alert_tier_precedence
    (probas : list float) (idx : Z) (label : string) (p_high r : float) :
  clicked s "🚀 Predict Flood Risk" = true ->
  clf_predict_proba clf X = Ok probas -> array_item probas 2 = Ok p_high ->
  clf_predict clf X = Ok idx -> getitem_int RISK_LABELS idx = Ok label ->
  reg_predict reg X = Ok r ->
  (label = "High" \/ (p_high >? Float.dec 6 1)%float = true ->
   filter is_alert (page_of run) = [Text Error critical_alert])
  /\ (~ (label = "High" \/ (p_high >? Float.dec 6 1)%float = true) ->
      label = "Medium" \/ (p_high >? Float.dec 3 1)%float = true ->
      filter is_alert (page_of run) = [Text Warning medium_alert])
  /\ (~ (label = "High" \/ (p_high >? Float.dec 6 1)%float = true) ->
      ~ (label = "Medium" \/ (p_high >? Float.dec 3 1)%float = true) ->
      filter is_alert (page_of run) = [Text Success low_alert])
  /\ In (Metric "Risk Level" label) (page_of run).
Proof.
  intros Hb Hp Ha Hi Hl Hr.
  destruct (alert_on_results_page expm1 pyplot_barh clf reg (features_of s)
              (numbers s w_lat) (numbers s w_lon) (texts s "Location Name:")
              probas idx label p_high r Hp Ha Hi Hl Hr) as [Halert Hmetric].
  fold results in Halert, Hmetric.
  rewrite (alerts_shown Hb), Halert.
  destruct (risk_assessment_cases label p_high) as (HH & HM & HL).
  split; [| split; [| split]].
  - intros H. now rewrite (HH H).
  - intros H1 H2. now rewrite (HM H1 H2).
  - intros H1 H2. now rewrite (HL H1 H2).
  - now apply written_stays.
Qed.


(** C9, amended: every result map on a page of [main] was drawn for the
    label of the predicted class, and that label alone fixes the circle
    and the marker: High gives radius 3000, a red marker and the circle
    colour #dc3545, Medium 2000, orange and #ffc107, Low 1000, green and
    #28a745.  The tier of the alert, which P(High) can raise above the
    class, has no part in it. *)
Theorem map_radius_and_colors (m : folium_map) (height : Z) :
  In (FoliumStatic m 1200 height) (page_of run) ->
  exists idx label mk c,
    clf_predict clf X = Ok idx /\ getitem_int RISK_LABELS idx = Ok label
    /\ children m = [Marker mk; Circle c]
    /\ ((label = "High" /\ circle_radius c = 3000 /\ icon_color mk = "red"
         /\ circle_color c = "#dc3545")
        \/ (label = "Medium" /\ circle_radius c = 2000 /\ icon_color mk = "orange"
            /\ circle_color c = "#ffc107")
        \/ (label = "Low" /\ circle_radius c = 1000 /\ icon_color mk = "green"
            /\ circle_color c = "#28a745")).
Proof.
  intros Hx. apply result_from_results in Hx as [_ Hx]; [| reflexivity].
  apply map_on_results_page in Hx as (idx & label & p_high & r & Hi & Hl & Hm).
  apply create_interactive_map_inv in Hm
    as (_ & _ & mk & c & color & Hcol & Hch & Hsel & Hcc & _).
  exists idx, label, mk, c. repeat (split; [assumption |]).
  apply getitem_RISK_COLORS in Hcol.
  destruct Hcol as [[-> ->] | [[-> ->] | [-> ->]]];
    cbn in Hsel; injection Hsel as Hic Hrad; auto 10.
Qed.

(** X8: on a click with a class index outside 0..2 the lookup in
    RISK_LABELS raises KeyError, which is caught: the page shows the
    prediction error with the index, and no metric, chart, map or alert;
    [main] ends normally. *)
Theorem bad_class_index_reported (probas : list float) (idx : Z) :
  clicked s "🚀 Predict Flood Risk" = true ->
  clf_predict_proba clf X = Ok probas -> clf_predict clf X = Ok idx ->
  ~ (0 <= idx <= 2) ->
  outcome run = Ok tt
  /\ In (Text Error ("Prediction error: " ++ repr_Z idx)) (page_of run)
  /\ filter is_result (page_of run) = []
  /\ filter is_alert (page_of run) = [].
Proof.
  intros Hb Hp Hi Hidx.
  assert (R : results = ([], Raise (PyExc "KeyError" (repr_Z idx)))).
  { subst results. unfold prediction_results. fold X.
    rewrite Hp, bind_lift_ok, Hi, bind_lift_ok, (RISK_LABELS_outside idx Hidx).
    reflexivity. }
  split; [apply (main_shows_reference expm1 pyplot_barh s (Ok clf) (Ok reg)) |].
  split; [apply (handled_on_page _ Hb); rewrite R; simpl; auto |].
  rewrite (results_shown Hb), (alerts_shown Hb), R. split; reflexivity.
Qed.

(** X9: with fewer than three probabilities the run stops at
    [probas[2]]: the Risk Level metric is already on the page and stays
    there, the IndexError is reported, and nothing else of the results is
    shown. *)
Theorem short_probabilities_partial_results
    (probas : list float) (idx : Z) (label : string) (r : float) :
  clicked s "🚀 Predict Flood Risk" = true ->
  clf_predict_proba clf X = Ok probas -> (List.length probas < 3)%nat ->
  clf_predict clf X = Ok idx -> getitem_int RISK_LABELS idx = Ok label ->
  reg_predict reg X = Ok r ->
  filter is_result (page_of run) = [Metric "Risk Level" label]
  /\ filter is_alert (page_of run) = []
  /\ In (Text Error ("Prediction error: index 2 is out of bounds for axis 0 with size "
                     ++ PyFormat.digits_of_N (N.of_nat (List.length probas))))
        (page_of run).
Proof.
  intros Hb Hp Hn Hi Hl Hr.
  assert (R : results
              = ([Text Header "📊 Prediction Results"; Metric "Risk Level" label],
                 Raise (PyExc "IndexError"
                          ("index 2 is out of bounds for axis 0 with size "
                           ++ PyFormat.digits_of_N (N.of_nat (List.length probas)))))).
  { subst results. unfold prediction_results. fold X.
    rewrite Hp, bind_lift_ok, Hi, bind_lift_ok, Hl, bind_lift_ok, Hr, bind_lift_ok.
    destruct probas as [| p0 [| p1 [| p2 rest]]]; [reflexivity .. |].
    cbn [List.length] in Hn. lia. }
  rewrite (results_shown Hb), (alerts_shown Hb), R.
  split; [reflexivity |]. split; [reflexivity |].
  apply (handled_on_page _ Hb). rewrite R. simpl. auto.
Qed.

(** X6: what a prediction puts on the page when every step succeeds
    (three probabilities, a class index in 0..2, a regressor value and a
    damage bar matplotlib can lay out): the four metrics, the two charts
    and the map, in this order and nothing else of the kind, and the one
    alert of the risk assessment.  The Risk Level metric and the map are
    given the label of the class index. *)
Theorem prediction_shown_in_full
    (p0 p1 p2 : float) (idx : Z) (label : string) (r : float) :
  clicked s "🚀 Predict Flood Risk" = true ->
  clf_predict_proba clf X = Ok [p0; p1; p2] ->
  clf_predict clf X = Ok idx -> getitem_int RISK_LABELS idx = Ok label ->
  reg_predict reg X = Ok r ->
  let damage := convert_usd_to_inr (expm1 r) in
  pyplot_barh damage = Ok tt ->
  exists fig damage_fig m,
    plot_risk_probabilities [p0; p1; p2] = Ok fig
    /\ plot_damage_estimate pyplot_barh damage = Ok damage_fig
    /\ create_interactive_map (numbers s w_lat) (numbers s w_lon)
         label p2 damage (texts s "Location Name:") = Ok m
    /\ filter is_result (page_of run)
       = [ Metric "Risk Level" label;
           Metric "High Risk Probability" (PyFormat.format_pct 1 p2);
           Metric "Estimated Damage" (format_rupees damage);
           Metric "Model Confidence" (PyFormat.format_pct 1 (Float.max_from p0 [p1; p2]));
           Pyplot fig;
           Pyplot damage_fig;
           FoliumStatic m 1200 600 ]
    /\ filter is_alert (page_of run) = page_of (risk_assessment label p2).
Proof.
  intros Hb Hp Hi Hl Hr damage Hbar.
  destruct (session_coordinates s) as [Hlat Hlon].
  destruct (successful_page expm1 pyplot_barh clf reg (features_of s)
              (numbers s w_lat) (numbers s w_lon) (texts s "Location Name:")
              p0 p1 p2 idx label r Hp Hi Hl Hr Hbar Hlat Hlon)
    as (fig & damage_fig & m & Hfig & Hdmg & Hm & R).
  exists fig, damage_fig, m.
  split; [exact Hfig |]. split; [exact Hdmg |]. split; [exact Hm |].
  rewrite (results_shown Hb), (alerts_shown Hb).
  subst results. rewrite R. cbn [page_of fst]. rewrite !filter_app.
  assert (Ha : filter is_alert (page_of (risk_assessment label p2))
               = page_of (risk_assessment label p2)
               /\ filter is_result (page_of (risk_assessment label p2)) = []).
  { unfold risk_assessment. destruct (alert_tier label p2); split; reflexivity. }
  destruct Ha as [Ha Hres]. rewrite Ha, Hres.
  split; [reflexivity | cbn [filter is_alert app]; apply app_nil_r].
Qed.

(** X15: when matplotlib raises on the damage bar, the four metrics, the
    alert and the probability chart are already on the page and stay
    there; the damage chart and the map are not shown, and the exception
    is reported. *)
Theorem damage_chart_failure_partial_results
    (p0 p1 p2 : float) (idx : Z) (label : string) (r : float) (e : exception) :
  clicked s "🚀 Predict Flood Risk" = true ->
  clf_predict_proba clf X = Ok [p0; p1; p2] ->
  clf_predict clf X = Ok idx -> getitem_int RISK_LABELS idx = Ok label ->
  reg_predict reg X = Ok r ->
  let damage := convert_usd_to_inr (expm1 r) in
  pyplot_barh damage = Raise e ->
  exists fig,
    plot_risk_probabilities [p0; p1; p2] = Ok fig
    /\ filter is_result (page_of run)
       = [ Metric "Risk Level" label;
           Metric "High Risk Probability" (PyFormat.format_pct 1 p2);
           Metric "Estimated Damage" (format_rupees damage);
           Metric "Model Confidence" (PyFormat.format_pct 1 (Float.max_from p0 [p1; p2]));
           Pyplot fig ]
    /\ filter is_alert (page_of run) = [alert_box (alert_tier label p2)]
    /\ In (Text Error ("Prediction error: " ++ str e)) (page_of run)
    /\ outcome run = Ok tt.
Proof.
  intros Hb Hp Hi Hl Hr damage Hbar.
  assert (R : exists fig written,
             plot_risk_probabilities [p0; p1; p2] = Ok fig
             /\ results = (written, Raise e)
             /\ filter is_result written
                = [ Metric "Risk Level" label;
                    Metric "High Risk Probability" (PyFormat.format_pct 1 p2);
                    Metric "Estimated Damage" (format_rupees damage);
                    Metric "Model Confidence"
                      (PyFormat.format_pct 1 (Float.max_from p0 [p1; p2]));
                    Pyplot fig ]
             /\ filter is_alert written = [alert_box (alert_tier label p2)]).
  { subst results. unfold prediction_results. fold X.
    rewrite Hp, bind_lift_ok, Hi, bind_lift_ok, Hl, bind_lift_ok, Hr, bind_lift_ok.
    cbv zeta. change (array_item [p0; p1; p2] 2) with (@Ok float p2).
    rewrite !bind_lift_ok. unfold plot_damage_estimate. fold damage. rewrite Hbar.
    unfold risk_assessment.
    destruct (alert_tier label p2);
      (eexists; eexists; split; [reflexivity |]; split; [reflexivity |];
       split; reflexivity). }
  destruct R as (fig & written & Hfig & R & Hres & Hal).
  exists fig. split; [exact Hfig |].
  rewrite (results_shown Hb), (alerts_shown Hb), R. cbn [page_of fst].
  split; [exact Hres |]. split; [exact Hal |].
  split; [| apply (main_shows_reference expm1 pyplot_barh s (Ok clf) (Ok reg))].
  apply (handled_on_page _ Hb). rewrite R.
  cbn [try_except prediction_handler bind st emit page_of fst].
  apply in_or_app. right. left. reflexivity.
Qed.

(** X3: the metric and the map follow the predicted class, the alert
    follows the tier: for class Low with P(High) above 0.3 the metric
    reads Low, every result map on the page is the green one with the
    1000 m circle (and there is one when the damage chart before it is
    drawn), while the one alert on the page is the warning, or the
    critical one above 0.6. *)
Theorem alert_can_exceed_class (p0 p1 p2 r : float) :
  clicked s "🚀 Predict Flood Risk" = true ->
  clf_predict_proba clf X = Ok [p0; p1; p2] -> clf_predict clf X = Ok 0 ->
  reg_predict reg X = Ok r ->
  (p2 >? Float.dec 3 1)%float = true ->
  In (Metric "Risk Level" "Low") (page_of run)
  /\ filter is_alert (page_of run)
     = [if (p2 >? Float.dec 6 1)%float then Text Error critical_alert
        else Text Warning medium_alert]
  /\ (forall m height,
        In (FoliumStatic m 1200 height) (page_of run) ->
        is_map_with "green" 1000 (FoliumStatic m 1200 height) = true)
  /\ (pyplot_barh (convert_usd_to_inr (expm1 r)) = Ok tt ->
      existsb (is_map_with "green" 1000) (page_of run) = true).
Proof.
  intros Hb Hp Hi Hr H3.
  destruct (alert_on_results_page expm1 pyplot_barh clf reg (features_of s)
              (numbers s w_lat) (numbers s w_lon) (texts s "Location Name:")
              [p0; p1; p2] 0 "Low" p2 r Hp eq_refl Hi eq_refl Hr)
    as [Halert Hmetric].
  fold results in Halert, Hmetric.
  split; [now apply written_stays |].
  split.
  { rewrite (alerts_shown Hb), Halert. unfold alert_tier.
    cbn [String.eqb Ascii.eqb Bool.eqb orb]. rewrite H3.
    now destruct (p2 >? Float.dec 6 1)%float. }
  split.
  - intros m height Hx. apply result_from_results in Hx as [_ Hx]; [| reflexivity].
    apply map_on_results_page in Hx as (idx & label & p_high & r' & Hi' & Hl & Hm).
    fold X in Hi'. rewrite Hi in Hi'. injection Hi' as <-.
    injection Hl as <-.
    apply create_interactive_map_inv in Hm
      as (_ & _ & mk & c & color & _ & Hch & Hsel & _).
    cbn in Hsel. injection Hsel as Hic Hrad.
    unfold is_map_with. now rewrite Hch, Hic, Hrad.
  - intros Hbar. destruct (session_coordinates s) as [Hlat Hlon].
    destruct (successful_page expm1 pyplot_barh clf reg (features_of s)
                (numbers s w_lat) (numbers s w_lon) (texts s "Location Name:")
                p0 p1 p2 0 "Low" r Hp Hi eq_refl Hr Hbar Hlat Hlon)
      as (fig & damage_fig & m & _ & _ & Hm & R).
    apply create_interactive_map_inv in Hm
      as (_ & _ & mk & c & color & _ & Hch & Hsel & _).
    cbn in Hsel. injection Hsel as Hic Hrad.
    apply existsb_exists. exists (FoliumStatic m 1200 600). split.
    + apply (written_stays _ Hb). subst results. rewrite R. cbn [page_of fst].
      apply in_or_app. right. apply in_or_app. right.
      do 5 right. left. reflexivity.
    + unfold is_map_with. now rewrite Hch, Hic, Hrad.
Qed.

(** X7: the Model Confidence metric shows one of the three
    probabilities, and one that none of them exceeds when none of them is
    NaN. *)
Theorem confidence_is_largest_probability
    (p0 p1 p2 : float) (idx : Z) (label : string) (r : float) :
  clicked s "🚀 Predict Flood Risk" = true ->
  clf_predict_proba clf X = Ok [p0; p1; p2] ->
  clf_predict clf X = Ok idx -> getitem_int RISK_LABELS idx = Ok label ->
  reg_predict reg X = Ok r ->
  exists c,
    In (Metric "Model Confidence" (PyFormat.format_pct 1 c)) (page_of run)
    /\ In c [p0; p1; p2]
    /\ (is_nan p0 = false -> is_nan p1 = false -> is_nan p2 = false ->
        forall p, In p [p0; p1; p2] -> (p <=? c)%float = true).
Proof.
  intros Hb Hp Hi Hl Hr.
  exists (Float.max_from p0 [p1; p2]). split; [| split].
  - apply (written_stays _ Hb). subst results. unfold prediction_results. fold X.
    rewrite Hp, bind_lift_ok, Hi, bind_lift_ok, Hl, bind_lift_ok, Hr, bind_lift_ok.
    cbv zeta. change (array_item [p0; p1; p2] 2) with (@Ok float p2).
    rewrite !bind_lift_ok.
    do 4 (eapply In_bind_later; [reflexivity | cbv beta]).
    apply In_bind_now. left. reflexivity.
  - apply max_from_In.
  - intros N0 N1 N2. apply max_from_upper. cbn [forallb].
    now rewrite N0, N1, N2.
Qed.

(** X10: without a click on the button the page has no metric, no
    chart, no result map and no alert. *)
Theorem no_click_no_results :
  clicked s "🚀 Predict Flood Risk" = false ->
  filter is_result (page_of run) = [] /\ filter is_alert (page_of run) = [].
Proof. exact main_page_not_clicked. Qed.

End Click.

Lemma alert_tier_precedence_witness :
  filter is_alert
    (page_of (main scenario_expm1 scenario_barh (Ok borderline_clf) (Ok scenario_reg)
                default_session))
  = [Text Warning medium_alert]
  /\ filter is_alert
       (page_of (main scenario_expm1 scenario_barh (Ok scenario_clf) (Ok scenario_reg)
                   default_session))
     = [Text Success low_alert].
Proof.
  split.
  - apply (proj1 (proj2 (alert_tier_precedence scenario_expm1 scenario_barh
                           default_session borderline_clf scenario_reg
                           [Float.dec 4 1; Float.dec 25 2; Float.dec 35 2] 0 "Low"
                           (Float.dec 35 2) (Float.dec 92 1)
                           eq_refl eq_refl eq_refl eq_refl eq_refl eq_refl))).
    + intros [H | H]; [discriminate H | vm_compute in H; discriminate H].
    + right. vm_compute. reflexivity.
  - apply (proj1 (proj2 (proj2 (alert_tier_precedence scenario_expm1 scenario_barh
                                  default_session scenario_clf scenario_reg
                                  [Float.dec 7 1; Float.dec 2 1; Float.dec 1 1] 0 "Low"
                                  (Float.dec 1 1) (Float.dec 92 1)
                                  eq_refl eq_refl eq_refl eq_refl eq_refl eq_refl)))).
    + intros [H | H]; [discriminate H | vm_compute in H; discriminate H].
    + intros [H | H]; [discriminate H | vm_compute in H; discriminate H].
Defined.

(** C9 fails as stated: for class Low with P(High) = 0.35 the tier is
    Medium and the page shows the Medium warning, yet the map has the
    green marker and the 1000 m circle, not the orange one of 2000 m. *)
Lemma map_follows_class_not_tier :
  let run := main scenario_expm1 scenario_barh (Ok borderline_clf) (Ok scenario_reg)
               default_session in
  alert_tier "Low" (Float.dec 35 2) = Medium
  /\ filter is_alert (page_of run) = [Text Warning medium_alert]
  /\ existsb (is_map_with "green" 1000) (page_of run) = true
  /\ existsb (is_map_with "orange" 2000) (page_of run) = false.
Proof. vm_compute. repeat split. Qed.

Lemma map_radius_and_colors_witness :
  exists m idx label mk c,
    In (FoliumStatic m 1200 600)
       (page_of (main scenario_expm1 scenario_barh (Ok scenario_clf) (Ok scenario_reg)
                   default_session))
    /\ clf_predict scenario_clf (DataFrame (features_of default_session) NUM_FEATURES)
       = Ok idx
    /\ getitem_int RISK_LABELS idx = Ok label
    /\ children m = [Marker mk; Circle c] /\ circle_radius c = 1000.
Proof.
  destruct (successful_page scenario_expm1 scenario_barh scenario_clf scenario_reg
              (features_of default_session) (numbers default_session w_lat)
              (numbers default_session w_lon) (texts default_session "Location Name:")
              (Float.dec 7 1) (Float.dec 2 1) (Float.dec 1 1) 0 "Low" (Float.dec 92 1)
              eq_refl eq_refl eq_refl eq_refl eq_refl eq_refl eq_refl)
    as (fig & damage_fig & m & _ & _ & _ & R).
  assert (Hin : In (FoliumStatic m 1200 600)
                  (page_of (main scenario_expm1 scenario_barh (Ok scenario_clf)
                              (Ok scenario_reg) default_session))).
  { apply (written_stays scenario_expm1 scenario_barh default_session scenario_clf
             scenario_reg _ eq_refl).
    rewrite R. cbn [page_of fst]. apply in_or_app. right. apply in_or_app. right.
    do 5 right. left. reflexivity. }
  destruct (map_radius_and_colors scenario_expm1 scenario_barh default_session
              scenario_clf scenario_reg m 600 Hin)
    as (idx & label & mk & c & Hi & Hl & Hch & Hcases).
  exists m, idx, label, mk, c. repeat (split; [assumption |]).
  assert (E : idx = 0) by (injection Hi as <-; reflexivity). subst idx.
  injection Hl as <-.
  destruct Hcases as [(H & _) | [(H & _) | (_ & H & _)]];
    [discriminate H | discriminate H | exact H].
Defined.

Lemma alert_can_exceed_class_witness :
  let run := main scenario_expm1 scenario_barh (Ok borderline_clf) (Ok scenario_reg)
               default_session in
  In (Metric "Risk Level" "Low") (page_of run)
  /\ filter is_alert (page_of run) = [Text Warning medium_alert]
  /\ existsb (is_map_with "green" 1000) (page_of run) = true.
Proof.
  destruct (alert_can_exceed_class scenario_expm1 scenario_barh default_session
              borderline_clf scenario_reg (Float.dec 4 1) (Float.dec 25 2)
              (Float.dec 35 2) (Float.dec 92 1) eq_refl eq_refl eq_refl eq_refl eq_refl)
    as (H1 & H2 & _ & H4).
  split; [exact H1 |]. split; [exact H2 |]. apply H4. reflexivity.
Defined.

Lemma prediction_shown_in_full_witness :
  let run := main scenario_expm1 scenario_barh (Ok scenario_clf) (Ok scenario_reg)
               default_session in
  exists fig damage_fig m,
    filter is_result (page_of run)
    = [ Metric "Risk Level" "Low";
        Metric "High Risk Probability" "10.0%";
        Metric "Estimated Damage" "₹8.21 lakh";
        Metric "Model Confidence" "70.0%";
        Pyplot fig;
        Pyplot damage_fig;
        FoliumStatic m 1200 600 ]
    /\ filter is_alert (page_of run) = [Text Success low_alert].
Proof.
  destruct (prediction_shown_in_full scenario_expm1 scenario_barh default_session
              scenario_clf scenario_reg (Float.dec 7 1) (Float.dec 2 1) (Float.dec 1 1)
              0 "Low" (Float.dec 92 1) eq_refl eq_refl eq_refl eq_refl eq_refl eq_refl)
    as (fig & damage_fig & m & _ & _ & _ & Hres & Hal).
  exists fig, damage_fig, m. split; [exact Hres | exact Hal].
Defined.

Lemma damage_chart_failure_partial_results_witness :
  let run := main numpy_expm1_samples overflowing_barh (Ok scenario_clf)
               (Ok (constant_reg (Float.dec 7052 1))) default_session in
  exists fig text,
    filter is_result (page_of run)
    = [ Metric "Risk Level" "Low";
        Metric "High Risk Probability" "10.0%";
        Metric "Estimated Damage" text;
        Metric "Model Confidence" "70.0%";
        Pyplot fig ]
    /\ outcome run = Ok tt.
Proof.
  destruct (damage_chart_failure_partial_results numpy_expm1_samples overflowing_barh
              default_session scenario_clf (constant_reg (Float.dec 7052 1))
              (Float.dec 7 1) (Float.dec 2 1) (Float.dec 1 1) 0 "Low"
              (Float.dec 7052 1)
              (PyExc "OverflowError" "cannot convert float infinity to integer")
              eq_refl eq_refl eq_refl eq_refl eq_refl)
    as (fig & _ & Hres & _ & _ & Hout); [vm_compute; reflexivity |].
  exists fig. eexists. split; [exact Hres | exact Hout].
Defined.

Lemma confidence_is_largest_probability_witness :
  exists c,
    In (Metric "Model Confidence" (PyFormat.format_pct 1 c))
       (page_of (main scenario_expm1 scenario_barh (Ok scenario_clf) (Ok scenario_reg)
                   default_session))
    /\ (Float.dec 2 1 <=? c)%float = true.
Proof.
  destruct (confidence_is_largest_probability scenario_expm1 scenario_barh
              default_session scenario_clf scenario_reg (Float.dec 7 1) (Float.dec 2 1)
              (Float.dec 1 1) 0 "Low" (Float.dec 92 1)
              eq_refl eq_refl eq_refl eq_refl eq_refl) as (c & Hc & _ & Hmax).
  exists c. split; [exact Hc |].
  apply Hmax; [reflexivity | reflexivity | reflexivity |]. right. left. reflexivity.
Defined.

Lemma bad_class_index_reported_witness :
  let run := main scenario_expm1 scenario_barh (Ok four_class_clf) (Ok scenario_reg) default_session in
  outcome run = Ok tt
  /\ In (Text Error "Prediction error: 3") (page_of run)
  /\ filter is_result (page_of run) = []
  /\ filter is_alert (page_of run) = [].
Proof.
  apply (bad_class_index_reported scenario_expm1 scenario_barh default_session four_class_clf
           scenario_reg
           [Float.dec 1 1; Float.dec 2 1; Float.dec 3 1; Float.dec 4 1] 3
           eq_refl eq_refl eq_refl).
  lia.
Defined.

Lemma short_probabilities_partial_results_witness :
  let run := main scenario_expm1 scenario_barh (Ok two_class_clf) (Ok scenario_reg) default_session in
  filter is_result (page_of run) = [Metric "Risk Level" "Low"]
  /\ filter is_alert (page_of run) = []
  /\ In (Text Error "Prediction error: index 2 is out of bounds for axis 0 with size 2")
        (page_of run).
Proof.
  apply (short_probabilities_partial_results scenario_expm1 scenario_barh default_session
           two_class_clf scenario_reg [Float.dec 8 1; Float.dec 2 1] 0 "Low"
           (Float.dec 92 1) eq_refl eq_refl).
  - simpl. lia.
  - reflexivity.
  - reflexivity.
  - reflexivity.
Defined.

Lemma no_click_no_results_witness :
  let run := main scenario_expm1 scenario_barh (Ok scenario_clf) (Ok scenario_reg) idle_session in
  filter is_result (page_of run) = [] /\ filter is_alert (page_of run) = [].
Proof.
  exact (no_click_no_results scenario_expm1 scenario_barh idle_session scenario_clf scenario_reg
           eq_refl).
Defined.

(** ** C10: the levels the map function accepts *)




(** ** C5: the damage is not clamped *)

(** A negative amount is printed with its sign, and never in lakh or
    crore. *)
Lemma negative_rupees (amount : float) :
  (amount <? Float.of_Z 0)%float = true ->
  exists rest, format_rupees amount = "₹-" ++ rest.
Proof.
  unfold Float.ltb, SFltb.
  replace (Float.of_Z 0) with (S754_zero false) by (vm_compute; reflexivity).
  destruct amount as [sd | [|] | | [|] m e]; try discriminate; intros _.
  - eexists. vm_compute. reflexivity.
  - unfold format_rupees, Float.geb, Float.leb, SFleb.
    let c := eval vm_compute in (Float.of_Z 10000000) in
      change (Float.of_Z 10000000) with c.
    let c := eval vm_compute in (Float.of_Z 100000) in
      change (Float.of_Z 100000) with c.
    cbn [SFcompare PyFormat.format_f PyFormat.sign_of].
    eexists. reflexivity.
Qed.

(** C5 fails as stated, with the values numpy gives: a regressor output
    of -1.0 gives the damage expm1(-1.0) = -0.6321205588285577, which is
    negative and is shown as such; and expm1 is not strictly increasing,
    being -1.0 at -40.0 and at -38.0. *)
Lemma damage_negative_at_minus_one :
  let run := main numpy_expm1_samples scenario_barh (Ok scenario_clf)
               (Ok (constant_reg (Float.of_Z (-1)))) default_session in
  (numpy_expm1_samples (Float.of_Z (-1)) <? Float.of_Z 0)%float = true
  /\ In (Metric "Estimated Damage" "₹-52") (page_of run)
  /\ (Float.of_Z (-40) <? Float.of_Z (-38))%float = true
  /\ (numpy_expm1_samples (Float.of_Z (-40))
      <? numpy_expm1_samples (Float.of_Z (-38)))%float = false.
Proof.
  split; [vm_compute; reflexivity |].
  split; [| split; vm_compute; reflexivity].
  vm_compute. auto 50.
Qed.

Section UnclampedDamage.

Variable expm1 : float -> float.
Variable pyplot_barh : float -> result unit.
Variable s : session.
Variables (clf : classifier) (reg : regressor).

Let run := main expm1 pyplot_barh (Ok clf) (Ok reg) s.
Let X := DataFrame (features_of s) NUM_FEATURES.

(** C5, amended: the damage is what [numpy.expm1] returns for the
    regressor's output, times 83.0, and the script does not clamp it:
    the Estimated Damage metric shows that amount, and shows it with a
    minus sign whenever it is negative.  Whether it is non-negative, and
    how it grows with the output, is as numpy's expm1 has it. *)
Theorem damage_sign_and_monotone
    (probas : list float) (idx : Z) (label : string) (p_high r : float) :
  clicked s "🚀 Predict Flood Risk" = true ->
  clf_predict_proba clf X = Ok probas -> array_item probas 2 = Ok p_high ->
  clf_predict clf X = Ok idx -> getitem_int RISK_LABELS idx = Ok label ->
  reg_predict reg X = Ok r ->
  let damage := (expm1 r * USD_TO_INR)%float in
  In (Metric "Estimated Damage" (format_rupees damage)) (page_of run)
  /\ ((damage <? Float.of_Z 0)%float = true ->
      exists rest,
        In (Metric "Estimated Damage" ("₹-" ++ rest)) (page_of run)).
Proof.
  intros Hb Hp Ha Hi Hl Hr damage.
  assert (Hin : In (Metric "Estimated Damage" (format_rupees damage)) (page_of run)).
  { apply (written_stays expm1 pyplot_barh s clf reg _ Hb).
    unfold prediction_results. fold X.
    rewrite Hp, bind_lift_ok, Hi, bind_lift_ok, Hl, bind_lift_ok, Hr, bind_lift_ok.
    cbv zeta. rewrite Ha, bind_lift_ok.
    do 3 (eapply In_bind_later; [reflexivity | cbv beta]).
    apply In_bind_now. left. reflexivity. }
  split; [exact Hin |].
  intros Hneg. destruct (negative_rupees damage Hneg) as (rest & E).
  exists rest. now rewrite <- E.
Qed.

End UnclampedDamage.

Lemma damage_sign_and_monotone_witness :
  exists rest,
    In (Metric "Estimated Damage" ("₹-" ++ rest))
       (page_of (main numpy_expm1_samples scenario_barh (Ok scenario_clf)
                   (Ok (constant_reg (Float.of_Z (-1)))) default_session)).
Proof.
  apply (proj2 (damage_sign_and_monotone numpy_expm1_samples scenario_barh
                  default_session scenario_clf (constant_reg (Float.of_Z (-1)))
                  [Float.dec 7 1; Float.dec 2 1; Float.dec 1 1] 0 "Low"
                  (Float.dec 1 1) (Float.of_Z (-1))
                  eq_refl eq_refl eq_refl eq_refl eq_refl eq_refl)).
  vm_compute. reflexivity.
Defined.

(** ** C6: the model input *)






(** ** The hint after a failed load *)

Lemma substring_skip (a t : string) (n : nat) :
  substring (String.length a) n (a ++ t) = substring 0 n t.
Proof. induction a as [| c a IH]; simpl; [reflexivity | exact IH]. Qed.

Lemma substring_prefix (t b : string) :
  substring 0 (String.length t) (t ++ b) = t.
Proof. induction t as [| c t IH]; simpl; [now destruct b | now rewrite IH]. Qed.

Lemma prefix_split (t s : string) :
  substring 0 (String.length t) s = t -> exists post, s = t ++ post.
Proof.
  revert s. induction t as [| d t IH]; intros s H.
  - exists s. reflexivity.
  - destruct s as [| c s]; simpl in H; [discriminate |].
    injection H as <- H. destruct (IH s H) as (post & ->).
    exists post. reflexivity.
Qed.

Lemma substring_split (s t : string) (m : nat) :
  substring m (String.length t) s = t ->
  exists pre post, s = pre ++ t ++ post.
Proof.
  revert m. induction s as [| c s IH]; intros m H.
  - destruct m, t; simpl in H; try discriminate; exists "", ""; reflexivity.
  - destruct m as [| m].
    + destruct (prefix_split t _ H) as (post & E). exists "", post. exact E.
    + simpl in H. destruct (IH m H) as (pre & post & ->).
      exists (String c pre), post. reflexivity.
Qed.

(** [needle in haystack]: the needle occurs somewhere in the haystack. *)
Lemma contains_iff (needle s : string) :
  needle <> "" ->
  contains needle s = true <-> exists pre post, s = pre ++ needle ++ post.
Proof.
  intros Hne. unfold contains. split.
  - destruct (index 0 needle s) as [m |] eqn:E; [| discriminate]. intros _.
    apply index_correct1 in E. now apply substring_split in E.
  - intros (pre & post & ->).
    destruct (index 0 needle (pre ++ needle ++ post)) as [m |] eqn:E; [reflexivity |].
    exfalso.
    apply (index_correct3 0 (String.length pre) _ _ E Hne (Nat.le_0_l _)).
    now rewrite substring_skip, substring_prefix.
Qed.

Lemma lower_append (a b : string) : lower (a ++ b) = lower a ++ lower b.
Proof. induction a as [| c a IH]; simpl; [reflexivity | now rewrite IH]. Qed.

Section LoadHint.

Variable joblib_load_clf : result classifier.
Variable joblib_load_reg : result regressor.

(** X11: when a load fails with an exception whose text names lightgbm,
    in whatever letter case, [load_models] shows the LightGBM
    instructions after the error; when the lowercased text does not
    contain the word, it shows the common solutions.  Either way it
    returns (None, None). *)
Theorem lightgbm_hint_any_case (e : exception) :
  joblib_load_clf = Raise e
  \/ (exists clf, joblib_load_clf = Ok clf /\ joblib_load_reg = Raise e) ->
  (forall pre w post,
      str e = pre ++ w ++ post -> lower w = "lightgbm" ->
      load_models joblib_load_clf joblib_load_reg
      = ([ Text Spinner "Loading machine learning models...";
           Text Error ("❌ Model loading failed: " ++ str e);
           Text Info lightgbm_instructions ], Ok (None, None)))
  /\ ((forall pre post, lower (str e) <> pre ++ "lightgbm" ++ post) ->
      load_models joblib_load_clf joblib_load_reg
      = ([ Text Spinner "Loading machine learning models...";
           Text Error ("❌ Model loading failed: " ++ str e);
           Text Info common_solutions ], Ok (None, None))).
Proof.
  intros Hfail.
  assert (E : load_models joblib_load_clf joblib_load_reg
              = ([ Text Spinner "Loading machine learning models...";
                   Text Error ("❌ Model loading failed: " ++ str e);
                   Text Info (if contains "lightgbm" (lower (str e))
                              then lightgbm_instructions else common_solutions) ],
                 Ok (None, None))).
  { destruct Hfail as [Hc | (clf & Hc & Hr)]; unfold load_models;
      rewrite Hc; try rewrite Hr;
      cbv beta iota delta [try_except bind lift st emit ret];
      destruct (contains "lightgbm" (lower (str e))); reflexivity. }
  rewrite E. split.
  - intros pre w post Hs Hw.
    assert (C : contains "lightgbm" (lower (str e)) = true).
    { apply contains_iff; [discriminate |].
      exists (lower pre), (lower post). now rewrite Hs, !lower_append, Hw. }
    now rewrite C.
  - intros Hno.
    destruct (contains "lightgbm" (lower (str e))) eqn:C; [| reflexivity].
    apply contains_iff in C as (pre & post & C); [| discriminate].
    now destruct (Hno pre post).
Qed.

End LoadHint.

Lemma lightgbm_hint_any_case_witness :
  load_models (Raise lightgbm_missing) (Ok scenario_reg)
  = ([ Text Spinner "Loading machine learning models...";
       Text Error "❌ Model loading failed: LightGBM is required to load this model";
       Text Info lightgbm_instructions ], Ok (None, None)).
Proof.
  apply (proj1 (lightgbm_hint_any_case (Raise lightgbm_missing) (Ok scenario_reg)
                  lightgbm_missing (or_introl eq_refl))
           "" "LightGBM" " is required to load this model");
    reflexivity.
Defined.

(** ** Whole rupee amounts *)

Lemma group_rev_strip (ds : list ascii) (k : nat) :
  forallb (fun c => negb (is_comma c)) ds = true ->
  filter (fun c => negb (is_comma c)) (PyFormat.group_rev ds k) = ds.
Proof.
  revert k. induction ds as [| d ds IH]; intros k H; [reflexivity |].
  cbn [forallb] in H. apply andb_prop in H as [Hd Hds].
  cbn [PyFormat.group_rev].
  destruct k as [| [| [| [| k]]]]; cbn [filter]; rewrite ?Hd;
    try (cbn; rewrite ?Hd); now rewrite IH.
Qed.

Lemma forallb_rev {A : Type} (f : A -> bool) (l : list A) :
  forallb f (rev l) = forallb f l.
Proof.
  induction l as [| a l IH]; simpl; [reflexivity |].
  rewrite forallb_app, IH. simpl. rewrite andb_true_r. apply andb_comm.
Qed.

(** Taking the commas out of a grouped number gives the number back. *)
Lemma strip_group3 (s : string) :
  comma_free s -> strip_commas (PyFormat.group3 s) = s.
Proof.
  unfold comma_free, strip_commas, PyFormat.group3. intros H.
  rewrite list_ascii_of_string_of_list_ascii, filter_rev, group_rev_strip.
  - now rewrite rev_involutive, string_of_list_ascii_of_string.
  - now rewrite forallb_rev.
Qed.

Lemma div3_step (n : nat) : ((n + 3) / 3 = S (n / 3))%nat.
Proof.
  replace (n + 3)%nat with (n + 1 * 3)%nat by lia.
  rewrite Nat.div_add by lia. lia.
Qed.

Lemma length_group_rev (ds : list ascii) (k : nat) :
  (k <= 3)%nat -> ds <> [] ->
  List.length (PyFormat.group_rev ds k)
  = (List.length ds + (List.length ds + k - 1) / 3)%nat.
Proof.
  revert k. induction ds as [| d ds IH]; intros k Hk Hne; [congruence |].
  destruct ds as [| d' ds].
  - destruct k as [| [| [| [| k]]]]; try lia; reflexivity.
  - assert (Hne' : d' :: ds <> []) by discriminate.
    set (rest := d' :: ds) in *.
    assert (IH' : forall j, (j <= 3)%nat ->
                List.length (PyFormat.group_rev rest j)
                = (List.length rest + (List.length rest + j - 1) / 3)%nat)
      by (intros j Hj; now apply IH).
    destruct k as [| [| [| [| k]]]]; try lia; cbn [PyFormat.group_rev List.length].
    + rewrite (IH' 1%nat) by lia.
      replace (S (List.length rest) + 0 - 1)%nat with (List.length rest + 1 - 1)%nat by lia.
      lia.
    + rewrite (IH' 2%nat) by lia.
      replace (S (List.length rest) + 1 - 1)%nat with (List.length rest + 2 - 1)%nat by lia.
      lia.
    + rewrite (IH' 3%nat) by lia.
      replace (S (List.length rest) + 2 - 1)%nat with (List.length rest + 3 - 1)%nat by lia.
      lia.
    + rewrite (IH' 1%nat) by lia.
      replace (S (List.length rest) + 3 - 1)%nat with (List.length rest + 1 - 1 + 3)%nat by lia.
      rewrite div3_step. lia.
Qed.

(** A number of [n] digits is printed with [(n - 1) / 3] separators. *)
Lemma length_group3 (s : string) :
  String.length (PyFormat.group3 s)
  = (String.length s + (String.length s - 1) / 3)%nat.
Proof.
  assert (L : forall l, String.length (string_of_list_ascii l) = List.length l)
    by (induction l; simpl; congruence).
  assert (L' : forall t, List.length (list_ascii_of_string t) = String.length t)
    by (induction t; simpl; congruence).
  unfold PyFormat.group3. rewrite L, length_rev.
  destruct s as [| c s]; [reflexivity |].
  rewrite length_group_rev; [| lia |].
  - rewrite length_rev, L'. f_equal. f_equal. lia.
  - intros E. apply (f_equal (@List.length ascii)) in E.
    rewrite length_rev, L' in E. discriminate E.
Qed.

Lemma string_of_uint_comma_free (d : Decimal.uint) :
  forallb (fun c => negb (is_comma c))
          (list_ascii_of_string (NilEmpty.string_of_uint d)) = true.
Proof. induction d; simpl; auto. Qed.

Lemma digits_of_N_comma_free (n : N) : comma_free (PyFormat.digits_of_N n).
Proof.
  unfold comma_free, PyFormat.digits_of_N, NilZero.string_of_uint.
  destruct (N.to_uint n) eqn:E; try reflexivity;
    rewrite <- E; apply string_of_uint_comma_free.
Qed.

Lemma digits_of_N_nonempty (n : N) : (1 <= String.length (PyFormat.digits_of_N n))%nat.
Proof.
  unfold PyFormat.digits_of_N, NilZero.string_of_uint.
  destruct (N.to_uint n); simpl; lia.
Qed.

Lemma zero_pad_digits (n : N) :
  PyFormat.zero_pad 1 (PyFormat.digits_of_N n) = PyFormat.digits_of_N n.
Proof.
  unfold PyFormat.zero_pad.
  pose proof (digits_of_N_nonempty n) as H.
  replace (1 - String.length (PyFormat.digits_of_N n))%nat with 0%nat by lia.
  reflexivity.
Qed.

(** A whole number is rounded to itself. *)
Lemma scaled_round_whole (m : positive) (e v : Z) :
  e <= 0 -> Zpos m = v * 2 ^ (- e) -> PyFormat.scaled_round m e 0 = v.
Proof.
  intros He Hv. unfold PyFormat.scaled_round.
  change (10 ^ Z.of_nat 0) with 1. rewrite Z.mul_1_r.
  destruct (Z.leb_spec 0 e) as [H0 | H0].
  - assert (e = 0) by lia. subst e. rewrite Hv. simpl. lia.
  - assert (P : 0 < 2 ^ (- e)) by (apply Z.pow_pos_nonneg; lia).
    rewrite Hv, Z.div_mul, Z.mod_mul by lia.
    replace (2 * 0 ?= 2 ^ (- e))%Z with Lt by (symmetry; apply Z.compare_lt_iff; lia).
    reflexivity.
Qed.

Lemma format_whole (x : float) (v : Z) :
  whole x v ->
  PyFormat.format_f true 0 x = PyFormat.group3 (PyFormat.digits_of_N (Z.to_N v)).
Proof.
  intros (m & e & -> & _ & He & Hv). cbn [PyFormat.format_f PyFormat.sign_of].
  rewrite (scaled_round_whole m e v ltac:(lia) Hv).
  unfold PyFormat.render_fixed.
  rewrite zero_pad_digits, Nat.sub_0_r, substring_whole, append_empty_r.
  reflexivity.
Qed.

(** Floats of whole numbers compare as the numbers do. *)
Lemma leb_whole (x y : float) (a b : Z) :
  whole x a -> whole y b -> (x <=? y)%float = (a <=? b)%Z.
Proof.
  intros (mx & ex & -> & Hmx & Hex & Ha) (my & ey & -> & Hmy & Hey & Hb).
  destruct (whole_log2 mx ex a Hmx ltac:(lia) Ha) as [Pa La].
  destruct (whole_log2 my ey b Hmy ltac:(lia) Hb) as [Pb Lb].
  unfold Float.leb, SFleb, SFcompare.
  destruct (Z.compare_spec ex ey) as [E | E | E].
  - subst ey. change (Pos.compare_cont Eq mx my) with (Pos.compare mx my).
    assert (P : 0 < 2 ^ (- ex)) by (apply Z.pow_pos_nonneg; lia).
    destruct (Pos.compare_spec mx my) as [C | C | C]; symmetry.
    + apply Z.leb_le. subst my. rewrite Ha in Hb. nia.
    + apply Z.leb_le. apply Pos2Z.pos_lt_pos in C. nia.
    + apply Z.leb_gt. apply Pos2Z.pos_lt_pos in C. nia.
  - symmetry. apply Z.leb_le.
    destruct (Z.le_gt_cases a b) as [H | H]; [exact H |].
    assert (Z.log2 b <= Z.log2 a) by (apply Z.log2_le_mono; lia). lia.
  - symmetry. apply Z.leb_gt.
    destruct (Z.le_gt_cases a b) as [H | H]; [| lia].
    assert (Z.log2 a <= Z.log2 b) by (apply Z.log2_le_mono; lia). lia.
Qed.

Lemma geb_whole (x y : float) (a b : Z) :
  whole x a -> whole y b -> (x >=? y)%float = (b <=? a)%Z.
Proof. intros Hx Hy. exact (leb_whole y x b a Hy Hx). Qed.

Lemma format_rupees_below_lakh (x : float) (v : Z) :
  whole x v -> v < 100000 ->
  format_rupees x = "₹" ++ PyFormat.group3 (PyFormat.digits_of_N (Z.to_N v)).
Proof.
  intros W Hv. unfold format_rupees.
  rewrite (geb_whole x _ v 10000000 W) by (apply of_Z_whole; lia).
  rewrite (geb_whole x _ v 100000 W) by (apply of_Z_whole; lia).
  replace (10000000 <=? v)%Z with false by (symmetry; apply Z.leb_gt; lia).
  replace (100000 <=? v)%Z with false by (symmetry; apply Z.leb_gt; lia).
  f_equal. now apply format_whole.
Qed.

(** X12: whole rupee amounts are shown exactly.  Below one lakh the
    metric reads the amount digit for digit, in groups of three; a whole
    dollar amount [a] whose 83-fold is below one lakh is shown as exactly
    [83 * a] rupees.  From one lakh the amount is given in lakh, from one
    crore in crore.  Taking the separators out of the grouped text gives
    the digits back, and [d] digits carry [(d - 1) / 3] separators. *)
Theorem format_rupees_whole :
  (forall n : Z, 0 <= n < 100000 ->
     format_rupees (Float.of_Z n)
     = "₹" ++ PyFormat.group3 (PyFormat.digits_of_N (Z.to_N n)))
  /\ (forall a : Z, 0 <= a -> 83 * a < 100000 ->
       format_rupees (convert_usd_to_inr (Float.of_Z a))
       = "₹" ++ PyFormat.group3 (PyFormat.digits_of_N (Z.to_N (83 * a))))
  /\ (forall n : Z, 100000 <= n < 10000000 ->
       format_rupees (Float.of_Z n)
       = "₹" ++ PyFormat.format_f false 2 (Float.of_Z n / Float.of_Z 100000)%float
         ++ " lakh")
  /\ (forall n : Z, 10000000 <= n < 2 ^ 53 ->
       format_rupees (Float.of_Z n)
       = "₹" ++ PyFormat.format_f false 2 (Float.of_Z n / Float.of_Z 10000000)%float
         ++ " crore")
  /\ (forall n : N,
       let digits := PyFormat.digits_of_N n in
       strip_commas (PyFormat.group3 digits) = digits
       /\ String.length (PyFormat.group3 digits)
          = (String.length digits + (String.length digits - 1) / 3)%nat).
Proof.
  split; [| split; [| split; [| split]]].
  - intros n Hn.
    destruct (Z.eq_dec n 0) as [-> | N0]; [vm_compute; reflexivity |].
    apply format_rupees_below_lakh; [apply of_Z_whole; lia | lia].
  - intros a Ha Hb.
    destruct (Z.eq_dec a 0) as [-> | N0]; [vm_compute; reflexivity |].
    replace (83 * a) with (a * 83) by ring.
    apply format_rupees_below_lakh; [| lia].
    apply convert_whole; [apply of_Z_whole; lia | lia].
  - intros n Hn. unfold format_rupees.
    assert (W : whole (Float.of_Z n) n) by (apply of_Z_whole; lia).
    rewrite (geb_whole _ _ n 10000000 W) by (apply of_Z_whole; lia).
    rewrite (geb_whole _ _ n 100000 W) by (apply of_Z_whole; lia).
    replace (10000000 <=? n)%Z with false by (symmetry; apply Z.leb_gt; lia).
    replace (100000 <=? n)%Z with true by (symmetry; apply Z.leb_le; lia).
    reflexivity.
  - intros n Hn. unfold format_rupees.
    assert (W : whole (Float.of_Z n) n) by (apply of_Z_whole; lia).
    rewrite (geb_whole _ _ n 10000000 W) by (apply of_Z_whole; lia).
    replace (10000000 <=? n)%Z with true by (symmetry; apply Z.leb_le; lia).
    reflexivity.
  - intros n digits. split.
    + apply strip_group3, digits_of_N_comma_free.
    + apply length_group3.
Qed.

Lemma format_rupees_whole_witness :
  format_rupees (Float.of_Z 1234) = "₹1,234"
  /\ format_rupees (convert_usd_to_inr (Float.of_Z 1000)) = "₹83,000"
  /\ format_rupees (Float.of_Z 250000) = "₹2.50 lakh".
Proof.
  split; [| split].
  - rewrite (proj1 format_rupees_whole 1234) by lia. vm_compute. reflexivity.
  - rewrite (proj1 (proj2 format_rupees_whole) 1000) by lia. vm_compute. reflexivity.
  - rewrite (proj1 (proj2 (proj2 format_rupees_whole)) 250000) by lia.
    vm_compute. reflexivity.
Defined.

(** ** The dict and the row *)

Lemma dict_get_not_key {V : Type} (d : list (string * V)) (key : string) :
  ~ In key (map fst d) -> dict_get d key = None.
Proof.
  induction d as [| [k v] d IH]; [reflexivity |].
  cbn [map fst In dict_get]. intros H.
  destruct (String.eqb_spec k key) as [-> | _]; [exfalso; auto |].
  apply IH. auto.
Qed.

Lemma dict_get_perm {V : Type} (d d' : list (string * V)) (key : string) :
  NoDup (map fst d) -> Permutation d d' -> dict_get d key = dict_get d' key.
Proof.
  intros Hnd Hp. induction Hp as [| [k v] d d' Hp IH | [k v] [k' v'] d | d d' d'' Hp IH Hp' IH'].
  - reflexivity.
  - cbn [dict_get]. destruct (k =? key)%string; [reflexivity |].
    apply IH. now inversion Hnd.
  - cbn [dict_get].
    destruct (String.eqb_spec k key) as [-> | _];
      destruct (String.eqb_spec k' key) as [-> | _]; try reflexivity.
    exfalso. inversion Hnd as [| ? ? Hn _]. apply Hn. now left.
  - rewrite IH by exact Hnd. apply IH'.
    apply (Permutation_NoDup (Permutation_map fst Hp) Hnd).
Qed.

(** X13: the row given to the pipelines does not depend on the order in
    which the dict was filled, and a key that is no column does not
    reach it: the columns alone fix the row. *)
Theorem DataFrame_order_independent
    (features features' : list (string * float)) (columns : list string) :
  NoDup (map fst features) -> Permutation features features' ->
  DataFrame features columns = DataFrame features' columns
  /\ (forall key v, ~ In key columns ->
        DataFrame ((key, v) :: features) columns = DataFrame features columns).
Proof.
  intros Hnd Hp. split.
  - unfold DataFrame. apply map_ext. intros c.
    now rewrite (dict_get_perm features features' c Hnd Hp).
  - intros key v H. unfold DataFrame. apply map_ext_in. intros c Hc.
    cbn [dict_get].
    destruct (String.eqb_spec key c) as [-> | _]; [contradiction | reflexivity].
Qed.

Lemma DataFrame_order_independent_witness :
  DataFrame [("elevation", Float.dec 2500 1); ("rainfall_mm", Float.dec 150 1)]
            NUM_FEATURES
  = DataFrame [("rainfall_mm", Float.dec 150 1); ("elevation", Float.dec 2500 1)]
              NUM_FEATURES.
Proof.
  apply (DataFrame_order_independent
           [("elevation", Float.dec 2500 1); ("rainfall_mm", Float.dec 150 1)]
           [("rainfall_mm", Float.dec 150 1); ("elevation", Float.dec 2500 1)]
           NUM_FEATURES).
  - repeat constructor; simpl; intuition discriminate.
  - apply perm_swap.
Defined.

(** ** The probability chart *)

(** X14: the probability chart has one bar per class, in the order Low,
    Medium, High, each with its probability as height and its colour of
    RISK_COLORS, and one percentage label per probability; a number of
    probabilities other than three (or one, which is repeated) makes
    [ax.bar] raise ValueError. *)
Theorem probability_chart (probas : list float) :
  (forall p0 p1 p2, probas = [p0; p1; p2] ->
     plot_risk_probabilities probas
     = Ok (BarChart "Flood Risk Probability Distribution" "Probability"
             [ {| bar_label := "Low"; bar_height := p0; bar_color := "#28a745" |};
               {| bar_label := "Medium"; bar_height := p1; bar_color := "#ffc107" |};
               {| bar_label := "High"; bar_height := p2; bar_color := "#dc3545" |} ]
             [ PyFormat.format_pct 1 p0; PyFormat.format_pct 1 p1;
               PyFormat.format_pct 1 p2 ]))
  /\ (List.length probas <> 1%nat -> List.length probas <> 3%nat ->
      exists msg, plot_risk_probabilities probas = Raise (PyExc "ValueError" msg)).
Proof.
  split.
  - intros p0 p1 p2 ->. reflexivity.
  - intros H1 H3.
    destruct probas as [| p0 [| p1 [| p2 [| p3 rest]]]];
      try (cbn [List.length] in *; congruence); eexists; reflexivity.
Qed.

Lemma probability_chart_witness :
  exists msg,
    plot_risk_probabilities [Float.dec 8 1; Float.dec 2 1]
    = Raise (PyExc "ValueError" msg).
Proof.
  apply (proj2 (probability_chart [Float.dec 8 1; Float.dec 2 1]));
    simpl; lia.
Defined.
